(** * ClickTime client (clicktime.py): a shallow embedding and its properties

    The module [clicktime.py] is a Python 2 program: a class [ClickTime]
    whose methods issue HTTPS requests and decode JSON answers, and a
    command-line harness under [if __name__ == "__main__"].

    The embedding keeps the program's shape.  Python objects that the
    program inspects are values of the type [value]; exceptions are values
    of [exn]; a method is a function in a state-and-exception monad whose
    state holds the heap of header dictionaries (they are mutated in place)
    and the log of the requests sent so far.  The remote server, the JSON
    decoder, the clock and [float()] are parameters of the development.

    Limits of the model, stated once.  Text is a sequence of characters
    with codes below 256, and Python 2's two kinds of text, [str] and
    [unicode], are one type here.  On ASCII text the two kinds behave
    alike.  On other text they do not, and the model follows the program
    where the kind is known and leaves the outcome open where it is not:
    the session is decoded by [json.loads], so its text is [unicode] and
    [str()] raises [UnicodeEncodeError] on it; what [json.dumps] makes of
    caller-supplied text outside ASCII (an escaped text, or
    [UnicodeDecodeError] for bytes that are not UTF-8) is a parameter of
    the development.  Floating-point numbers are not values of the model
    (the only float the program builds, [float(hours)], is carried by its
    JSON text); transport failures of [httplib] are not represented. *)

From Stdlib Require Import ZArith String Ascii List Lia Bool.
From stdpp Require Import base option gmap strings list fin_maps pretty sorting.

#[local] Set Warnings "-register-all".
#[local] Open Scope Z_scope.
#[local] Open Scope string_scope.
#[local] Arguments String.append !_ _ / : simpl nomatch.

(** ** Python values and exceptions *)

Module Py.

(** The Python objects the program handles: [None], booleans, integers,
    text, lists, and dictionaries keyed by text (what [json.loads] builds
    from JSON objects). *)
Inductive value : Type :=
| VNone
| VBool (b : bool)
| VInt (z : Z)
| VStr (s : string)
| VList (l : list value)
| VDict (d : gmap string value).

(** Exceptions, by the class they are raised with, and the text Python
    attaches to them.  The text is informative only; properties are stated
    on the class. *)
Inductive exn : Type :=
| StandardError (msg : string)
| ValueError (msg : string)
| TypeError (msg : string)
| KeyError (key : string)
| IndexError (msg : string)
| NameError (msg : string)
| AttributeError (msg : string)
| UnicodeEncodeError (msg : string)
| UnicodeDecodeError (msg : string)
| SystemExit (status : Z) (msg : string).

Inductive result (A : Type) : Type :=
| Return (a : A)
| Raise (e : exn).
Arguments Return {A} a.
Arguments Raise {A} e.

(** The class an exception was raised with: [type(e) is C]. *)
Definition is_ValueError (e : exn) : bool :=
  match e with ValueError _ => true | _ => false end.

Definition is_StandardError (e : exn) : bool :=
  match e with StandardError _ => true | _ => false end.

Definition is_SystemExit (e : exn) : bool :=
  match e with SystemExit _ _ => true | _ => false end.

(** [isinstance(e, StandardError)], what [except StandardError] catches.
    In Python 2 every class above derives from [StandardError]
    ([KeyError] and [IndexError] through [LookupError], the two Unicode
    errors through [UnicodeError] and [ValueError]), except [SystemExit],
    which derives from [BaseException]. *)
Definition isinstance_StandardError (e : exn) : bool :=
  match e with
  | StandardError _ | ValueError _ | TypeError _ | KeyError _
  | IndexError _ | NameError _ | AttributeError _
  | UnicodeEncodeError _ | UnicodeDecodeError _ => true
  | SystemExit _ _ => false
  end.

(** Text within ASCII: every character has a code below 128. *)
Definition ascii_char (c : ascii) : bool := Nat.ltb (nat_of_ascii c) 128.

Fixpoint ascii_text (s : string) : bool :=
  match s with
  | EmptyString => true
  | String c r => ascii_char c && ascii_text r
  end.

(** A value all of whose text, keys included, is within ASCII. *)
Fixpoint ascii_value (v : value) : bool :=
  match v with
  | VStr s => ascii_text s
  | VList l =>
      (fix go (l : list value) : bool :=
         match l with
         | [] => true
         | x :: r => ascii_value x && go r
         end) l
  | VDict d =>
      map_fold (fun k x acc => ascii_text k && ascii_value x && acc) true d
  | _ => true
  end.

(** [a == b].  Booleans are integers ([True == 1]); lists compare
    element-wise and dictionaries key by key, with [==] on the members. *)
Definition int_of_bool (b : bool) : Z := if b then 1 else 0.

Fixpoint py_eq (a b : value) {struct a} : bool :=
  match a, b with
  | VNone, VNone => true
  | VBool x, VBool y => Bool.eqb x y
  | VBool x, VInt y => Z.eqb (int_of_bool x) y
  | VInt x, VBool y => Z.eqb x (int_of_bool y)
  | VInt x, VInt y => Z.eqb x y
  | VStr x, VStr y => String.eqb x y
  | VList xs, VList ys =>
      (fix go (xs ys : list value) {struct xs} : bool :=
         match xs, ys with
         | [], [] => true
         | x :: xs', y :: ys' => py_eq x y && go xs' ys'
         | _, _ => false
         end) xs ys
  | VDict d, VDict e =>
      Nat.eqb (size d) (size e) &&
      map_fold (fun k x acc =>
                  match e !! k with
                  | Some y => py_eq x y && acc
                  | None => false
                  end) true d
  | _, _ => false
  end.

Definition py_ne (a b : value) : bool := negb (py_eq a b).

(** Truth value of an object, as tested by [if x:]. *)
Definition py_truthy (v : value) : bool :=
  match v with
  | VNone => false
  | VBool b => b
  | VInt z => negb (Z.eqb z 0)
  | VStr s => negb (String.eqb s "")
  | VList l => match l with [] => false | _ => true end
  | VDict d => negb (Nat.eqb (size d) 0)
  end.

Definition type_name (v : value) : string :=
  match v with
  | VNone => "NoneType"
  | VBool _ => "bool"
  | VInt _ => "int"
  | VStr _ => "str"
  | VList _ => "list"
  | VDict _ => "dict"
  end.

(** [for x in v]: the items a loop visits.  A dictionary yields its keys,
    text yields its characters. *)
Fixpoint chars_of (s : string) : list value :=
  match s with
  | EmptyString => []
  | String c s' => VStr (String c EmptyString) :: chars_of s'
  end.

Definition py_iter (v : value) : result (list value) :=
  match v with
  | VList l => Return l
  | VDict d => Return (VStr <$> (map_to_list d).*1)
  | VStr s => Return (chars_of s)
  | _ => Raise (TypeError ("'" ++ type_name v ++ "' object is not iterable"))
  end.

(** [v[key]] for a text key. *)
Definition py_getitem (v : value) (key : string) : result value :=
  match v with
  | VDict d =>
      match d !! key with
      | Some x => Return x
      | None => Raise (KeyError key)
      end
  | VList _ => Raise (TypeError "list indices must be integers, not str")
  | VStr _ => Raise (TypeError "string indices must be integers, not str")
  | _ => Raise (TypeError ("'" ++ type_name v ++
                           "' object has no attribute '__getitem__'"))
  end.

(** [l[0]] on a list. *)
Definition py_first (l : list value) : result value :=
  match l with
  | x :: _ => Return x
  | [] => Raise (IndexError "list index out of range")
  end.

End Py.
Export Py.

(** ** The [datetime] values the program uses *)

Module Datetime.

Record date : Type := Date { year : Z; month : Z; day : Z }.

Definition is_leap (y : Z) : bool :=
  Z.eqb (y mod 4) 0 && (negb (Z.eqb (y mod 100) 0) || Z.eqb (y mod 400) 0).

Definition days_in_month (y m : Z) : Z :=
  if Z.eqb m 2 then (if is_leap y then 29 else 28)
  else if Z.eqb m 4 || Z.eqb m 6 || Z.eqb m 9 || Z.eqb m 11 then 30
  else 31.

(** The dates [datetime.date(y, m, d)] accepts. *)
Definition valid_date (d : date) : bool :=
  Z.leb 1 (year d) && Z.leb (year d) 9999 &&
  Z.leb 1 (month d) && Z.leb (month d) 12 &&
  Z.leb 1 (day d) && Z.leb (day d) (days_in_month (year d) (month d)).

Definition days_before_year (y : Z) : Z :=
  let p := y - 1 in p * 365 + p / 4 - p / 100 + p / 400.

Fixpoint days_before_month_aux (y : Z) (n : nat) : Z :=
  match n with
  | O => 0
  | S k => days_before_month_aux y k + days_in_month y (Z.of_nat (S k))
  end.

Definition days_before_month (y m : Z) : Z :=
  days_before_month_aux y (Z.to_nat (m - 1)).

(** [d.toordinal()]: day 1 is 0001-01-01. *)
Definition toordinal (d : date) : Z :=
  days_before_year (year d) + days_before_month (year d) (month d) + day d.

(** A date argument of the program: absent, text, a [datetime.date], or a
    [datetime.datetime] (a date and the microseconds since midnight). *)
Inductive datearg : Type :=
| ANone
| AStr (s : string)
| ADate (d : date)
| ADateTime (d : date) (us : Z).

Definition is_none (a : datearg) : bool :=
  match a with ANone => true | _ => false end.

Definition us_per_day : Z := 86400000000.

(** [b - a] as a [timedelta], in microseconds.  Python subtracts two dates
    or two date-times; a date and a date-time do not subtract. *)
Definition py_sub (b a : datearg) : result Z :=
  match b, a with
  | ADate e, ADate s => Return ((toordinal e - toordinal s) * us_per_day)
  | ADateTime e ue, ADateTime s us_ =>
      Return ((toordinal e - toordinal s) * us_per_day + (ue - us_))
  | _, _ => Raise (TypeError "unsupported operand type(s) for -")
  end.

(** Decimal digits. *)
Definition digit_char (n : Z) : ascii := ascii_of_nat (48 + Z.to_nat n).

Definition digit_in (lo hi : Z) (c : ascii) : option Z :=
  let v := Z.of_nat (nat_of_ascii c) - 48 in
  if Z.leb lo v && Z.leb v hi then Some v else None.

Definition two_digits (n : Z) : string :=
  String (digit_char (n / 10 mod 10)) (String (digit_char (n mod 10)) "").

Definition four_digits (n : Z) : string :=
  String (digit_char (n / 1000 mod 10))
    (String (digit_char (n / 100 mod 10)) (two_digits n)).

(** [d.strftime("%Y%m%d")].  Python 2's [strftime] refuses years before
    1900 ("year=1899 is before 1900; the datetime strftime() methods
    require year >= 1900"). *)
Definition strftime_Ymd (d : date) : result string :=
  if Z.ltb (year d) 1900 then
    Raise (ValueError ("year=" ++ pretty (year d) ++
             " is before 1900; the datetime strftime() methods require year >= 1900"))
  else Return (four_digits (year d) ++ two_digits (month d) ++ two_digits (day d)).

(** [datetime.datetime.strptime(s, "%Y%m%d")].  The library compiles the
    format to the regular expression
      (\d\d\d\d)(1[0-2]|0[1-9]|[1-9])(3[0-1]|[1-2]\d|0[1-9]|[1-9]| [1-9])
    matches it at the start of [s] (alternatives tried left to right, with
    backtracking), then refuses text left over and impossible dates. *)
Definition match_Y (s : string) : option (Z * string) :=
  match s with
  | String a (String b (String c (String d r))) =>
      match digit_in 0 9 a, digit_in 0 9 b, digit_in 0 9 c, digit_in 0 9 d with
      | Some x3, Some x2, Some x1, Some x0 =>
          Some (x3 * 1000 + x2 * 100 + x1 * 10 + x0, r)
      | _, _, _, _ => None
      end
  | _ => None
  end.

Definition alt2 (lo1 hi1 lo2 hi2 : Z) (s : string) : list (Z * string) :=
  match s with
  | String a (String b r) =>
      match digit_in lo1 hi1 a, digit_in lo2 hi2 b with
      | Some x, Some y => [(x * 10 + y, r)]
      | _, _ => []
      end
  | _ => []
  end.

Definition alt1 (s : string) : list (Z * string) :=
  match s with
  | String a r =>
      match digit_in 1 9 a with Some x => [(x, r)] | None => [] end
  | _ => []
  end.

Definition alt_space (s : string) : list (Z * string) :=
  match s with
  | String a r => if Ascii.eqb a " " then alt1 r else []
  | _ => []
  end.

Definition match_m (s : string) : list (Z * string) :=
  alt2 1 1 0 2 s ++ alt2 0 0 1 9 s ++ alt1 s.

Definition match_d (s : string) : list (Z * string) :=
  alt2 3 3 0 1 s ++ alt2 1 2 0 9 s ++ alt2 0 0 1 9 s ++ alt1 s ++ alt_space s.

(** First way to match month then day, in the order the engine tries. *)
Definition match_md (s : string) : option (Z * Z * string) :=
  head (m_r ← match_m s; d_r ← match_d m_r.2; [(m_r.1, d_r.1, d_r.2)]).

Definition strptime_Ymd (s : string) : result date :=
  match match_Y s with
  | None => Raise (ValueError ("time data '" ++ s ++ "' does not match format '%Y%m%d'"))
  | Some (y, r) =>
      match match_md r with
      | None => Raise (ValueError ("time data '" ++ s ++ "' does not match format '%Y%m%d'"))
      | Some (m, d, rest) =>
          if negb (String.eqb rest "") then
            Raise (ValueError ("unconverted data remains: " ++ rest))
          else if valid_date (Date y m d) then Return (Date y m d)
          else Raise (ValueError "day is out of range for month")
      end
  end.

End Datetime.
Export Datetime.

(** ** The network, the heap and the parameters of the development *)

Record request : Type := Request {
  req_method : string;
  req_url : string;
  req_headers : gmap string string;
  req_body : option string
}.

Record response : Type := Response {
  resp_data : string;
  resp_status : Z;
  resp_reason : string
}.

(** The dictionary [create_timeentry] serializes holds Python values and
    one float, [float(hours)], carried by its JSON text. *)
Inductive jitem : Type :=
| JVal (v : value)
| JFloat (text : string).

(** What the program is run against.  [logging_bound] tells whether the
    global name [logging] is bound: the module imports [logging] only under
    [if __name__ == "__main__"], so it is bound when the file runs as a
    script and unbound when the module is imported.  The server answers a
    request knowing the requests before it.  [dumps_non_ascii] is what
    [json.dumps] makes of a dictionary holding text outside ASCII: the JSON
    text, or the [UnicodeDecodeError] it raises on a [str] that is not
    UTF-8. *)
Class Env : Type := {
  logging_bound : bool;
  server : list request -> request -> response;
  today : date * Z;
  json_loads : string -> option value;
  repr_container : value -> string;
  float_json : value -> result string;
  dumps_non_ascii : gmap string jitem -> result string;
  b64encodestring : string -> string
}.

Abbreviation loc := nat (only parsing).

(** The mutable state: header dictionaries by address, and the requests
    sent so far, oldest first. *)
Record world : Type := World {
  heap : gmap nat (gmap string string);
  sent : list request
}.

Definition M (A : Type) : Type := world -> result A * world.

#[global] Instance M_ret : MRet M := fun A a w => (Return a, w).
#[global] Instance M_bind : MBind M := fun A B f m w =>
  match m w with
  | (Return a, w') => f a w'
  | (Raise e, w') => (Raise e, w')
  end.

Definition raise {A : Type} (e : exn) : M A := fun w => (Raise e, w).

Definition lift {A : Type} (r : result A) : M A := fun w => (r, w).

Definition deref (l : loc) : M (gmap string string) :=
  fun w => (Return (default ∅ (heap w !! l)), w).

Definition store (l : loc) (d : gmap string string) : M unit :=
  fun w => (Return tt, World (<[l := d]> (heap w)) (sent w)).

Definition alloc (d : gmap string string) : M loc :=
  fun w => let l := fresh (dom (heap w)) in
           (Return l, World (<[l := d]> (heap w)) (sent w)).

(** An instance is its attribute dictionary.  [self.__headers] is stored
    under the mangled name [_ClickTime__headers] and refers to a dictionary
    on the heap; every other attribute holds a value. *)
Inductive attr : Type :=
| AHeaders (l : loc)
| AVal (v : value).

Abbreviation instance := (gmap string attr) (only parsing).

Section Program.
Context `{Env}.

(** [connection.request(...)] then [getresponse()] and [read()]. *)
Definition send (r : request) : M response :=
  fun w => (Return (server (sent w) r), World (heap w) (sent w ++ [r])).

(** The text of [v]: what a [%s] conversion inserts for it, and what
    [str(v)] returns whenever it returns. *)
Definition py_str (v : value) : string :=
  match v with
  | VNone => "None"
  | VBool true => "True"
  | VBool false => "False"
  | VInt z => pretty z
  | VStr s => s
  | VList _ | VDict _ => repr_container v
  end.

(** [str(v)] on a value decoded by [json.loads], whose text is a [unicode]
    object: text outside ASCII cannot be encoded and raises.  A list or a
    dictionary is written by [repr], which escapes such text. *)
Definition str_unicode (v : value) : result string :=
  match v with
  | VStr s =>
      if ascii_text s then Return s
      else Raise (UnicodeEncodeError
                    "'ascii' codec can't encode character: ordinal not in range(128)")
  | _ => Return (py_str v)
  end.

(** [fmt % args], for the conversion the program uses, [%s]. *)
Fixpoint py_format (fmt : string) (args : list value) : result string :=
  match fmt with
  | EmptyString =>
      match args with
      | [] => Return ""
      | _ => Raise (TypeError "not all arguments converted during string formatting")
      end
  | String "%" (String "s" rest) =>
      match args with
      | a :: args' =>
          match py_format rest args' with
          | Return t => Return (py_str a ++ t)
          | Raise e => Raise e
          end
      | [] => Raise (TypeError "not enough arguments for format string")
      end
  | String "%" _ => Raise (ValueError "unsupported format character")
  | String c rest =>
      match py_format rest args with
      | Return t => Return (String c t)
      | Raise e => Raise e
      end
  end.

(** *** [json.dumps] *)

Definition dquote : ascii := ascii_of_nat 34.
Definition backslash : ascii := ascii_of_nat 92.

Definition quoted (s : string) : string :=
  String dquote (s ++ String dquote EmptyString).

Definition hex_digit (n : nat) : ascii :=
  if Nat.ltb n 10 then ascii_of_nat (48 + n) else ascii_of_nat (87 + n).

(** One character of a JSON string, as [json.dumps] writes it: the quote
    and the backslash are escaped, and so is everything outside the
    printable range (space to tilde).  Beyond ASCII this is the text
    written for a [unicode] object, a character standing for its code
    point. *)
Definition escape_char (c : ascii) : string :=
  let n := nat_of_ascii c in
  let esc (x : ascii) := String backslash (String x EmptyString) in
  if Nat.eqb n 34 then esc dquote
  else if Nat.eqb n 92 then esc backslash
  else if Nat.eqb n 10 then esc "n"%char
  else if Nat.eqb n 13 then esc "r"%char
  else if Nat.eqb n 9 then esc "t"%char
  else if Nat.eqb n 12 then esc "f"%char
  else if Nat.eqb n 8 then esc "b"%char
  else if Nat.ltb n 32 || Nat.ltb 126 n then
    String backslash
      (String "u" (String "0" (String "0"
         (String (hex_digit (n / 16)) (String (hex_digit (n mod 16)) EmptyString)))))
  else String c EmptyString.

Fixpoint escape (s : string) : string :=
  match s with
  | EmptyString => EmptyString
  | String c r => escape_char c ++ escape r
  end.

Definition dumps_str (s : string) : string := quoted (escape s).

Definition dumps_entry (k : string) (text : string) : string :=
  dumps_str k ++ ": " ++ text.

(** The JSON text of a value, with the default separators.  A dictionary
    is written in the order its items are listed. *)
Fixpoint dumps_value (v : value) : string :=
  match v with
  | VNone => "null"
  | VBool true => "true"
  | VBool false => "false"
  | VInt z => pretty z
  | VStr s => dumps_str s
  | VList l =>
      "[" ++ String.concat ", " ((fix go (l : list value) : list string :=
                                    match l with
                                    | [] => []
                                    | x :: r => dumps_value x :: go r
                                    end) l) ++ "]"
  | VDict d =>
      "{" ++ String.concat ", "
               (map_fold (fun k x acc => dumps_entry k (dumps_value x) :: acc) [] d)
          ++ "}"
  end.

Definition dumps_item (i : jitem) : string :=
  match i with
  | JVal v => dumps_value v
  | JFloat t => t
  end.

Definition dumps_data (d : gmap string jitem) : string :=
  "{" ++ String.concat ", "
           (map_fold (fun k x acc => dumps_entry k (dumps_item x) :: acc) [] d)
      ++ "}".

(** The text of a float is digits, a sign, a point and letters. *)
Definition ascii_item (i : jitem) : bool :=
  match i with
  | JVal v => ascii_value v
  | JFloat _ => true
  end.

Definition ascii_data (d : gmap string jitem) : bool :=
  map_fold (fun k i acc => ascii_text k && ascii_item i && acc) true d.

(** [json.dumps(data)].  On ASCII text a [str] and a [unicode] object are
    written alike.  Other text is decoded as UTF-8 first when it is a
    [str], which can raise, and escaped by code point when it is a
    [unicode] object: that outcome is left to [dumps_non_ascii]. *)
Definition json_dumps (d : gmap string jitem) : result string :=
  if ascii_data d then Return (dumps_data d) else dumps_non_ascii d.

(** *** The class [ClickTime] *)

Definition SERVER : string := "app.clicktime.com".
Definition URL_BASE : string := "/api/1.0".

Definition getattr (self : instance) (name : string) : M attr :=
  match self !! name with
  | Some a => mret a
  | None => raise (AttributeError
                     ("'ClickTime' object has no attribute '" ++ name ++ "'"))
  end.

(** The value an attribute contributes to a [%s] conversion. *)
Definition attr_value (a : attr) : M value :=
  match a with
  | AVal v => mret v
  | AHeaders l => d ← deref l; mret (VDict (VStr <$> d))
  end.

Definition getattr_value (self : instance) (name : string) : M value :=
  a ← getattr self name; attr_value a.

(** [self.__headers].  When a session key spelled [_ClickTime__headers] has
    replaced the dictionary by text, the request helpers fail; that path is
    cut short here with a [TypeError]. *)
Definition self_headers (self : instance) : M loc :=
  a ← getattr self "_ClickTime__headers";
  match a with
  | AHeaders l => mret l
  | AVal _ => raise (TypeError "stored headers are not a dictionary")
  end.

(** The header dictionary a request helper sends: the caller's dictionary
    updated in place when it is given and not empty, else a fresh copy of
    the stored one. *)
Definition merge_headers (self : instance) (headers : option loc) : M loc :=
  let fresh_copy :=
    l0 ← self_headers self; s ← deref l0; alloc s in
  match headers with
  | Some l =>
      d ← deref l;
      if negb (Nat.eqb (size d) 0) then
        l0 ← self_headers self;
        s ← deref l0;
        _ ← store l (s ∪ d);
        mret l
      else fresh_copy
  | None => fresh_copy
  end.

Definition _get (self : instance) (url : string) (headers : option loc)
  : M (string * Z * string) :=
  h ← merge_headers self headers;
  u ← lift (py_format "%s/%s" [VStr URL_BASE; VStr url]);
  hd ← deref h;
  resp ← send (Request "GET" u hd None);
  mret (resp_data resp, resp_status resp, resp_reason resp).

Definition _post (self : instance) (url : string) (headers : option loc)
    (data : option string) : M (string * Z * string) :=
  h ← merge_headers self headers;
  d ← deref h;
  _ ← store h (<["content-type" := "application/json; charset=utf-8"]> d);
  u ← lift (py_format "%s/%s" [VStr URL_BASE; VStr url]);
  hd ← deref h;
  resp ← send (Request "POST" u hd data);
  mret (resp_data resp, resp_status resp, resp_reason resp).

Definition _parse (json_str : string) (default : value) : M value :=
  match json_loads json_str with
  | Some v => mret v
  | None =>
      if logging_bound then mret default
      else raise (NameError "global name 'logging' is not defined")
  end.

Definition session (self : instance) : M value :=
  r ← _get self "Session" None;
  _parse r.1.1 VNone.

Definition company (self : instance) (company_id : value) : M value :=
  company_id ← (if py_eq company_id VNone
                then getattr_value self "CompanyID" else mret company_id);
  u ← lift (py_format "Companies/%s" [company_id]);
  r ← _get self u None;
  _parse r.1.1 VNone.

Definition user (self : instance) (company_id user_id : value) : M value :=
  company_id ← (if py_eq company_id VNone
                then getattr_value self "CompanyID" else mret company_id);
  user_id ← (if py_eq user_id VNone
             then getattr_value self "UserID" else mret user_id);
  u ← lift (py_format "Companies/%s/Users/" [company_id; user_id]);
  r ← _get self u None;
  _parse r.1.1 VNone.

(** The loop shared by [clients], [jobs] and [tasks]:
      for x in data: if x[field] == wanted: return [x]
      return [] *)
Fixpoint scan (field : string) (wanted : value) (items : list value)
  : result value :=
  match items with
  | [] => Return (VList [])
  | x :: rest =>
      match py_getitem x field with
      | Return f => if py_eq f wanted then Return (VList [x])
                    else scan field wanted rest
      | Raise e => Raise e
      end
  end.

Definition select (field : string) (wanted data : value) : M value :=
  if py_ne wanted VNone then
    items ← lift (py_iter data);
    lift (scan field wanted items)
  else mret data.

Definition user_url (self : instance) (fmt : string) : M string :=
  c ← getattr_value self "CompanyID";
  u ← getattr_value self "UserID";
  lift (py_format fmt [c; u]).

Definition clients (self : instance) (client_id : value) : M value :=
  u ← user_url self "Companies/%s/Users/%s/Clients";
  r ← _get self u None;
  data ← _parse r.1.1 (VList []);
  select "ClientID" client_id data.

Definition jobs (self : instance) (job_number with_child_ids : value)
  : M value :=
  u ← user_url self "Companies/%s/Users/%s/Jobs";
  let u := if py_eq with_child_ids (VBool true)
           then u ++ "?withChildIDs=true" else u in
  r ← _get self u None;
  data ← _parse r.1.1 (VList []);
  select "Number" job_number data.

Definition tasks (self : instance) (task_number : value) : M value :=
  u ← user_url self "Companies/%s/Users/%s/Tasks";
  r ← _get self u None;
  data ← _parse r.1.1 (VList []);
  select "Code" task_number data.

(** Dates: text is parsed to a date-time at midnight; anything else is
    kept as it is. *)
Definition parse_date (a : datearg) : M datearg :=
  match a with
  | AStr s => d ← lift (strptime_Ymd s); mret (ADateTime d 0)
  | _ => mret a
  end.

Definition strftime (a : datearg) : result string :=
  match a with
  | ADate d | ADateTime d _ => strftime_Ymd d
  | ANone => Raise (AttributeError "'NoneType' object has no attribute 'strftime'")
  | AStr _ => Raise (AttributeError "'str' object has no attribute 'strftime'")
  end.

Definition timeentires (self : instance) (startdate enddate : datearg)
  : M value :=
  url ← user_url self "Companies/%s/Users/%s/Jobs";
  startdate ← parse_date startdate;
  enddate ← parse_date enddate;
  url ← (if negb (is_none startdate) && is_none enddate then
           s ← lift (strftime startdate);
           q ← lift (py_format "?date=%s" [VStr s]);
           mret (url ++ q)
         else if negb (is_none startdate) && negb (is_none enddate) then
           delta ← lift (py_sub enddate startdate);
           if Z.ltb (7 * us_per_day) delta then
             raise (ValueError "You can only request up to 7 days of timeentires")
           else
             s ← lift (strftime startdate);
             e ← lift (strftime enddate);
             q ← lift (py_format "?startdate=%s&enddate=%s" [VStr s; VStr e]);
             mret (url ++ q)
         else if is_none startdate && negb (is_none enddate) then
           raise (ValueError "If enddate is provided you must provide startdate")
         else mret url);
  r ← _get self url None;
  _parse r.1.1 VNone.

Definition create_timeentry (self : instance) (job_id task_id hours : value)
    (date : datearg) (comment break_time : value) : M value :=
  date ← (match date with
          | ANone => mret (ADateTime today.1 today.2)
          | AStr s => d ← lift (strptime_Ymd s); mret (ADateTime d 0)
          | _ => mret date
          end);
  ds ← lift (strftime date);
  h ← lift (float_json hours);
  let data : gmap string jitem :=
    <["Comment" := JVal (VStr EmptyString)]>
      (<["Hours" := JFloat h]>
         (<["Date" := JVal (VStr ds)]>
            (<["TaskID" := JVal task_id]> {["JobID" := JVal job_id]}))) in
  let data := if py_ne comment VNone
              then <["Comment" := JVal comment]> data else data in
  let data := if py_ne break_time VNone
              then <["BreakTime" := JVal break_time]> data else data in
  body ← lift (json_dumps data);
  u ← user_url self "Companies/%s/Users/%s/TimeEntries";
  r ← _post self u None (Some body);
  _parse r.1.1 VNone.

(** [s[:-1]]. *)
Fixpoint drop_last (s : string) : string :=
  match s with
  | EmptyString => EmptyString
  | String c EmptyString => EmptyString
  | String c r => String c (drop_last r)
  end.

(** [setattr(self, str(k), str(v))]: the name is coerced first, then the
    value. *)
Definition setattr_str (self : instance) (kv : string * value)
  : result instance :=
  match str_unicode (VStr kv.1) with
  | Raise e => Raise e
  | Return name =>
      match str_unicode kv.2 with
      | Raise e => Raise e
      | Return text => Return (<[name := AVal (VStr text)]> self)
      end
  end.

Fixpoint setattr_each (self : instance) (items : list (string * value))
  : result instance :=
  match items with
  | [] => Return self
  | kv :: rest =>
      match setattr_str self kv with
      | Return self' => setattr_each self' rest
      | Raise e => Raise e
      end
  end.

(** The loop over the items of the session; it stops at the first item
    [str()] refuses. *)
Definition set_attributes (self : instance) (d : gmap string value)
  : result instance :=
  setattr_each self (map_to_list d).

Definition __init__ (username password : value) : M instance :=
  up ← lift (py_format "%s:%s" [username; password]);
  let auth := drop_last (b64encodestring up) in
  hv ← lift (py_format "Basic %s" [VStr auth]);
  l ← alloc {["Authorization" := hv]};
  let self : instance := {["_ClickTime__headers" := AHeaders l]} in
  s ← session self;
  let self : instance := <["_ClickTime__session" := AVal s]> self in
  if py_eq s VNone then
    raise (StandardError "Failure to establish session information")
  else
    match s with
    | VDict d =>
        if bool_decide (is_Some (d !! "CompanyID"))
        then lift (set_attributes self d)
        else raise (StandardError "Session information lacks CompanyID")
    | _ => raise (AttributeError
                    ("'" ++ type_name s ++ "' object has no attribute 'has_key'"))
    end.

(** *** The command-line harness: the [create_timeentry] action *)

(** [args.pop(0)]. *)
Definition pop0 (args : list string) : result (string * list string) :=
  match args with
  | a :: r => Return (a, r)
  | [] => Raise (IndexError "pop from empty list")
  end.

(** [try: x = args.pop(0) except IndexError: x = None]. *)
Definition pop0_or_none (args : list string) : option string * list string :=
  match args with
  | a :: r => (Some a, r)
  | [] => (None, [])
  end.

(** [parser.error(msg)]: prints the usage and [msg], exits with status 2. *)
Definition parser_error {A : Type} (fmt : string) (arg : string) : M A :=
  msg ← lift (py_format fmt [VStr arg]);
  raise (SystemExit 2 msg).

Definition py_len (v : value) : result Z :=
  match v with
  | VList l => Return (Z.of_nat (length l))
  | VStr s => Return (Z.of_nat (String.length s))
  | VDict d => Return (Z.of_nat (size d))
  | _ => Raise (TypeError ("object of type '" ++ type_name v ++ "' has no len()"))
  end.

(** [v[0]]. *)
Definition py_index0 (v : value) : result value :=
  match v with
  | VList l => py_first l
  | VStr (String c _) => Return (VStr (String c EmptyString))
  | VStr EmptyString => Raise (IndexError "string index out of range")
  | VDict _ => Raise (KeyError "0")
  | _ => Raise (TypeError ("'" ++ type_name v ++
                           "' object has no attribute '__getitem__'"))
  end.

Definition cli_create_timeentry (ct : instance) (args : list string)
  : M (list string) :=
  p ← lift (pop0 args); let job_number := p.1 in
  p ← lift (pop0 p.2); let task_number := p.1 in
  p ← lift (pop0 p.2); let hours := p.1 in
  let p := pop0_or_none p.2 in
  let date := match p.1 with Some s => AStr s | None => ANone end in
  let p := pop0_or_none p.2 in
  let comment := match p.1 with Some s => VStr s | None => VNone end in
  let args := p.2 in
  jobs_ ← jobs ct (VStr job_number) (VBool true);
  n ← lift (py_len jobs_);
  job_id ← (if Z.eqb n 0 then
              parser_error "Could not find job with number '%s'" job_number
            else if Z.ltb 1 n then
              parser_error "Multiple jobs with number '%s'" job_number
            else j ← lift (py_index0 jobs_); lift (py_getitem j "JobID"));
  tasks_ ← tasks ct (VStr task_number);
  n ← lift (py_len jobs_);
  task_id ← (if Z.eqb n 0 then
               parser_error "Could not find task with number '%s'" task_number
             else if Z.ltb 1 n then
               parser_error "Multiple tasks with number '%s'" task_number
             else t ← lift (py_index0 tasks_); lift (py_getitem t "TaskID"));
  _ ← create_timeentry ct job_id task_id (VStr hours) date comment VNone;
  mret args.

End Program.

(** ** The command-line harness *)

(** The harness prints as well as it talks to the server: its state is the
    lines printed so far together with the state of the client. *)
Record console : Type := Console {
  printed : list string;
  net : world
}.

Definition CM (A : Type) : Type := console -> result A * console.

#[global] Instance CM_ret : MRet CM := fun A a k => (Return a, k).
#[global] Instance CM_bind : MBind CM := fun A B f m k =>
  match m k with
  | (Return a, k') => f a k'
  | (Raise e, k') => (Raise e, k')
  end.

(** A step of the client, run from the harness. *)
Definition client {A : Type} (m : M A) : CM A :=
  fun k => let (r, w) := m (net k) in (r, Console (printed k) w).

(** [print line]. *)
Definition print (line : string) : CM unit :=
  fun k => (Return tt, Console (printed k ++ [line]) (net k)).

Definition fail {A : Type} (e : exn) : CM A := fun k => (Raise e, k).

Fixpoint spaces (n : nat) : string :=
  match n with
  | O => EmptyString
  | S m => String " " (spaces m)
  end.

(** ["%-20s" % s]: [s] padded with spaces on the right to 20 characters. *)
Definition ljust20 (s : string) : string :=
  s ++ spaces (20 - String.length s).

Definition key_le (a b : string) : Prop := String.leb a b = true.

#[global] Instance key_le_dec (a b : string) : Decision (key_le a b).
Proof. unfold key_le. apply _. Defined.

Section Harness.
Context `{Env}.

Fixpoint print_lines (lines : list string) : CM unit :=
  match lines with
  | [] => mret tt
  | line :: rest => _ ← print line; print_lines rest
  end.

(** [pprint_dict(d)]: the keys, sorted, one line for each. *)
Definition pprint_line (d : gmap string value) (k : string) : string :=
  ljust20 k ++ " " ++ py_str (default VNone (d !! k)).

Definition pprint_dict (v : value) : CM unit :=
  match v with
  | VDict d =>
      let ks := merge_sort key_le (map_to_list d).*1 in
      print_lines (pprint_line d <$> ks)
  | _ => fail (AttributeError
                 ("'" ++ type_name v ++ "' object has no attribute 'keys'"))
  end.

(** [for x in v: pprint_dict(x); print]. *)
Fixpoint pprint_each (items : list value) : CM unit :=
  match items with
  | [] => mret tt
  | x :: rest =>
      _ ← pprint_dict x;
      _ ← print EmptyString;
      pprint_each rest
  end.

Definition pprint_all (v : value) : CM unit :=
  items ← client (lift (py_iter v));
  pprint_each items.

(** One turn of the loop: [action] has been popped, [args] is the rest;
    the arguments left for the next turn are returned. *)
Definition run_action (ct : instance) (action : string) (args : list string)
  : CM (list string) :=
  if String.eqb action "session" then
    session_ ← client (session ct);
    _ ← pprint_dict session_;
    mret args
  else if String.eqb action "jobs" then
    let p := pop0_or_none args in
    let job_number := match p.1 with Some s => VStr s | None => VNone end in
    jobs_ ← client (jobs ct job_number (VBool true));
    _ ← pprint_all jobs_;
    mret p.2
  else if String.eqb action "tasks" then
    tasks_ ← client (tasks ct VNone);
    _ ← pprint_all tasks_;
    mret args
  else if String.eqb action "timeentries" then
    timeentires_ ← client (timeentires ct ANone ANone);
    _ ← pprint_all timeentires_;
    mret args
  else if String.eqb action "create_timeentry" then
    client (cli_create_timeentry ct args)
  else
    client (parser_error "Unknown command '%s'" action).

(** [while len(args) > 0: action = args.pop(0); ...].  Every turn pops at
    least one argument; [fuel] bounds the number of turns, and the loop
    answers [false] only if the bound is met with arguments left. *)
Fixpoint main_loop (fuel : nat) (ct : instance) (args : list string)
  : CM bool :=
  match args with
  | [] => mret true
  | action :: rest =>
      match fuel with
      | O => mret false
      | S fuel' =>
          rest' ← run_action ct action rest;
          main_loop fuel' ct rest'
      end
  end.

(** The script: build the client from the options, then run the
    commands. *)
Definition main (username password : value) (args : list string) : CM bool :=
  ct ← client (__init__ username password);
  main_loop (length args) ct args.

End Harness.

(** ** A small concrete setting, used to run the program *)

Module Sample.

(** A decoder that knows finitely many documents: the JSON text of each
    value of [known]; any other text is malformed. *)
Definition loads (known : list value) (s : string) : option value :=
  find (fun v => String.eqb (dumps_value v) s) known.

(** A server that answers by URL; unknown URLs get an HTML error page. *)
Definition route (routes : list (string * string)) (r : request) : response :=
  match find (fun p => String.eqb p.1 (req_url r)) routes with
  | Some p => Response p.2 200 "OK"
  | None => Response "<html>Not Found</html>" 404 "Not Found"
  end.

(** [float()] on the few arguments the examples use. *)
Definition to_float (v : value) : result string :=
  match v with
  | VInt z => Return (pretty z ++ ".0")
  | VStr "2" => Return "2.0"
  | VStr "7.5" => Return "7.5"
  | VStr _ => Raise (ValueError "could not convert string to float")
  | _ => Raise (TypeError "float() argument must be a string or a number")
  end.

(** In this setting [json.dumps] takes text outside ASCII for bytes that
    are not UTF-8. *)
Definition env (script : bool) (routes : list (string * string))
    (known : list value) : Env :=
  {| logging_bound := script;
     server := fun _ r => route routes r;
     today := (Date 2024 2 29, 43200000000);
     json_loads := loads known;
     repr_container := dumps_value;
     float_json := to_float;
     dumps_non_ascii := fun _ =>
       Raise (UnicodeDecodeError "'utf8' codec can't decode byte");
     b64encodestring := fun s => s ++ String (ascii_of_nat 10) EmptyString |}.

Definition record (fields : list (string * value)) : value :=
  VDict (list_to_map fields).

Definition session_doc : value :=
  record [("CompanyID", VStr "c9"); ("UserID", VStr "u4"); ("SecurityLevel", VInt 2)].

Definition clients_doc : value :=
  VList [record [("ClientID", VStr "7"); ("Name", VStr "Acme")];
         record [("ClientID", VStr "8"); ("Name", VStr "Globex")]].

Definition jobs_doc : value :=
  VList [record [("JobID", VStr "j1"); ("Number", VStr "100")];
         record [("JobID", VStr "j2"); ("Number", VStr "200")]].

Definition tasks_doc : value :=
  VList [record [("TaskID", VStr "t1"); ("Code", VStr "DEV")]].

(** A client list in which one record has no [ClientID]. *)
Definition odd_clients_doc : value :=
  VList [record [("Name", VStr "Acme")]].

Definition known : list value :=
  [session_doc; clients_doc; jobs_doc; tasks_doc; odd_clients_doc; VList []].

Definition routes (clients_body : value) : list (string * string) :=
  [("/api/1.0/Session", dumps_value session_doc);
   ("/api/1.0/Companies/c9/Users/u4/Clients", dumps_value clients_body);
   ("/api/1.0/Companies/c9/Users/u4/Jobs", dumps_value jobs_doc);
   ("/api/1.0/Companies/c9/Users/u4/Jobs?withChildIDs=true", dumps_value jobs_doc);
   ("/api/1.0/Companies/c9/Users/u4/Tasks", dumps_value tasks_doc)].

(** The program run as a script ([logging] bound) and imported as a module
    ([logging] unbound), against the same server. *)
Definition script_env : Env := env true (routes clients_doc) known.
Definition module_env : Env := env false (routes clients_doc) known.
Definition odd_env : Env := env true (routes odd_clients_doc) known.

(** A session in which one value is text outside ASCII, and a server
    that answers with it. *)
Definition accent_session_doc : value :=
  record [("CompanyID", VStr "c9"); ("UserID", VStr "u4");
          ("UserName", VStr ("Jos" ++ String (ascii_of_nat 233) EmptyString))].

Definition accent_env : Env :=
  env true [("/api/1.0/Session", dumps_value accent_session_doc)]
      [accent_session_doc].

Definition w0 : world := World ∅ [].

(** The instance the constructor builds in this setting, and the state it
    leaves. *)
Definition built : result instance * world :=
  __init__ (H := script_env) (VStr "alice") (VStr "secret") w0.

(** The same, spelled out. *)
Definition hdrs : gmap string string :=
  {["Authorization" := "Basic alice:secret"]}.

Definition ct : instance :=
  <["SecurityLevel" := AVal (VStr "2")]>
    (<["UserID" := AVal (VStr "u4")]>
       (<["CompanyID" := AVal (VStr "c9")]>
          (<["_ClickTime__session" := AVal session_doc]>
             {["_ClickTime__headers" := AHeaders 0%nat]}))).

Definition w1 : world :=
  World (<[1%nat := hdrs]> {[0%nat := hdrs]})
        [Request "GET" "/api/1.0/Session" hdrs None].

(** A caller's header dictionary at address 2: with two entries, and
    empty. *)
Definition mine : gmap string string :=
  <["Accept" := "application/json"]> {["Authorization" := "Basic mine"]}.

Definition w_mine : world := World (<[2%nat := mine]> (heap w1)) (sent w1).
Definition w_empty : world := World (<[2%nat := ∅]> (heap w1)) (sent w1).

End Sample.

(** ** Properties *)

Lemma str_app_nil (s : string) : s ++ EmptyString = s.
Proof. induction s as [|c s IH]; simpl; [reflexivity | now rewrite IH]. Qed.

Lemma py_eq_None (v : value) : py_eq v VNone = true <-> v = VNone.
Proof. destruct v; simpl; split; intros Hv; try reflexivity; discriminate. Qed.

Lemma py_ne_None (v : value) : py_ne v VNone = true <-> v <> VNone.
Proof.
  unfold py_ne. destruct (py_eq v VNone) eqn:E; simpl.
  - apply py_eq_None in E. split; [discriminate | contradiction].
  - split; [| reflexivity]. intros _ Hv. apply py_eq_None in Hv. congruence.
Qed.

Ltac munfold :=
  unfold mbind, M_bind, mret, M_ret, lift, raise, deref, store, alloc in *.

Section Runs.
Context `{Env}.

(** An instance that holds its header dictionary at [l], and the two
    identifiers the URLs are built from. *)
Definition ready (self : instance) (l : loc) (c u : value) : Prop :=
  self !! "_ClickTime__headers" = Some (AHeaders l) /\
  self !! "CompanyID" = Some (AVal c) /\
  self !! "UserID" = Some (AVal u).

(** The stored headers, the request a plain [_get] sends, the state it
    leaves, and the body the server answers. *)
Definition stored (w : world) (l : loc) : gmap string string :=
  default ∅ (heap w !! l).

Definition get_request (w : world) (l : loc) (url : string) : request :=
  Request "GET" ("/api/1.0/" ++ url) (stored w l) None.

Definition after_get (w : world) (l : loc) (url : string) : world :=
  World (<[fresh (dom (heap w)) := stored w l]> (heap w))
        (sent w ++ [get_request w l url]).

Definition reply (w : world) (l : loc) (url : string) : string :=
  resp_data (server (sent w) (get_request w l url)).

Lemma get_run (self : instance) (l : loc) (url : string) (w : world) :
  self !! "_ClickTime__headers" = Some (AHeaders l) ->
  exists st rs,
    _get self url None w = (Return (reply w l url, st, rs), after_get w l url).
Proof.
  intros Hl. unfold _get, merge_headers, self_headers, getattr, send.
  rewrite Hl. munfold. simpl.
  rewrite lookup_insert_eq. simpl. rewrite str_app_nil.
  eexists _, _. reflexivity.
Qed.

Lemma user_url_run (self : instance) (l : loc) (c u : value) (fmt : string)
    (w : world) :
  ready self l c u ->
  user_url self fmt w = (py_format fmt [c; u], w).
Proof.
  intros (_ & Hc & Hu). unfold user_url, getattr_value, getattr, attr_value.
  rewrite Hc, Hu. munfold. reflexivity.
Qed.

Lemma parse_run (s : string) (default : value) (w : world) (v : value) :
  json_loads s = Some v -> _parse s default w = (Return v, w).
Proof. intros Hs. unfold _parse. now rewrite Hs. Qed.

Lemma parse_state (s : string) (default : value) (w : world) :
  (_parse s default w).2 = w.
Proof.
  unfold _parse. destruct (json_loads s); [reflexivity |].
  destruct logging_bound; reflexivity.
Qed.

Lemma select_run (field : string) (wanted data : value) (w : world) :
  select field wanted data w =
    (if py_ne wanted VNone then
       match py_iter data with
       | Return items => scan field wanted items
       | Raise e => Raise e
       end
     else Return data, w).
Proof.
  unfold select. destruct (py_ne wanted VNone); [| reflexivity].
  munfold. destruct (py_iter data); reflexivity.
Qed.

(** The three look-ups share one shape: build the URL, [_get] it, decode
    the body, filter. *)
Inductive lookup : Type :=
| Clients
| Jobs (with_child_ids : value)
| Tasks.

Definition call (m : lookup) (self : instance) (id : value) : M value :=
  match m with
  | Clients => clients self id
  | Jobs with_child_ids => jobs self id with_child_ids
  | Tasks => tasks self id
  end.

Definition lookup_field (m : lookup) : string :=
  match m with
  | Clients => "ClientID"
  | Jobs _ => "Number"
  | Tasks => "Code"
  end.

Definition user_path (c u : value) (leaf : string) : string :=
  "Companies/" ++ py_str c ++ "/Users/" ++ py_str u ++ leaf.

Definition lookup_url (m : lookup) (c u : value) : string :=
  match m with
  | Clients => user_path c u "/Clients"
  | Jobs with_child_ids =>
      if py_eq with_child_ids (VBool true)
      then user_path c u "/Jobs" ++ "?withChildIDs=true"
      else user_path c u "/Jobs"
  | Tasks => user_path c u "/Tasks"
  end.

Lemma call_state (m : lookup) (self : instance) (l : loc) (c u id : value)
    (w : world) :
  ready self l c u ->
  (call m self id w).2 = after_get w l (lookup_url m c u).
Proof.
  intros Hr. pose proof Hr as (Hl & _).
  destruct m as [|wc|]; unfold call, clients, jobs, tasks;
    unfold mbind at 1, M_bind at 1;
    rewrite (user_url_run _ _ _ _ _ _ Hr); simpl py_format; cbv iota beta;
    unfold mbind at 1, M_bind at 1.
  all: match goal with
       | |- context [_get ?sf ?url None ?w1] =>
           destruct (get_run sf l url w1 Hl) as (st & rs & ->)
       end.
  all: cbv iota beta; unfold mbind at 1, M_bind at 1; simpl fst.
  all: match goal with
       | |- context [_parse ?s ?d ?w'] =>
           pose proof (parse_state s d w') as Hp;
           destruct (_parse s d w') as [[v|e] w2]; simpl in Hp; subst w2
       end.
  all: rewrite ?select_run; simpl snd.
  all: unfold lookup_url, user_path; try destruct (py_eq wc (VBool true));
       try reflexivity.
Qed.

Lemma call_run (m : lookup) (self : instance) (l : loc) (c u id data : value)
    (w : world) :
  ready self l c u ->
  json_loads (reply w l (lookup_url m c u)) = Some data ->
  (call m self id w).1 =
    (if py_ne id VNone then
       match py_iter data with
       | Return items => scan (lookup_field m) id items
       | Raise e => Raise e
       end
     else Return data).
Proof.
  intros Hr Hd. pose proof Hr as (Hl & _).
  destruct m as [|wc|]; unfold call, clients, jobs, tasks;
    unfold mbind at 1, M_bind at 1;
    rewrite (user_url_run _ _ _ _ _ _ Hr); simpl py_format; cbv iota beta;
    unfold mbind at 1, M_bind at 1.
  all: match goal with
       | |- context [_get ?sf ?url None ?w1] =>
           destruct (get_run sf l url w1 Hl) as (st & rs & ->)
       end.
  all: cbv iota beta; unfold mbind at 1, M_bind at 1; simpl fst.
  all: unfold lookup_url, user_path in Hd;
       try destruct (py_eq wc (VBool true)).
  all: erewrite parse_run by exact Hd.
  all: rewrite select_run; reflexivity.
Qed.

End Runs.

Example built_is_ct : Sample.built = (Return Sample.ct, Sample.w1).
Proof. reflexivity. Qed.

Example ct_ready :
  ready Sample.ct 0%nat (VStr "c9") (VStr "u4").
Proof. repeat split. Qed.

(** *** The filter of [clients], [jobs] and [tasks] *)

Definition has_field (field : string) (x : value) : Prop :=
  exists f, py_getitem x field = Return f.

Definition matches (field : string) (id x : value) : Prop :=
  exists f, py_getitem x field = Return f /\ py_eq f id = true.

Lemma scan_spec (field : string) (id : value) (items : list value) :
  Forall (has_field field) items ->
  exists out,
    scan field id items = Return (VList out) /\
    (length out <= 1)%nat /\
    (forall x, out = [x] -> x ∈ items /\ matches field id x) /\
    (out = [] <-> forall x, x ∈ items -> ~ matches field id x).
Proof.
  induction 1 as [|x items (f & Hf) _ (out & Hs & Hlen & Hone & Hnil)].
  - exists []. simpl. split; [reflexivity |]. split; [lia |]. split.
    + intros x Hx. discriminate.
    + split; [| reflexivity]. intros _ x Hx. inversion Hx.
  - simpl. rewrite Hf. destruct (py_eq f id) eqn:E.
    + exists [x]. split; [reflexivity |]. split; [simpl; lia |]. split.
      * intros y Hy. injection Hy as <-. split; [left |]. exists f. auto.
      * split; [discriminate |]. intros Hno. exfalso.
        apply (Hno x); [left |]. exists f. auto.
    + exists out. split; [exact Hs |]. split; [exact Hlen |]. split.
      * intros y Hy. destruct (Hone y Hy) as (Hin & Hm). split; [right |]; auto.
      * rewrite Hnil. split.
        -- intros Hno y Hy. apply elem_of_cons in Hy as [-> | Hy]; [| auto].
           intros (g & Hg & Hgid). rewrite Hf in Hg. injection Hg as <-.
           congruence.
        -- intros Hno y Hy. apply Hno. right. exact Hy.
Qed.

(** C1, as amended.  On an instance that holds its headers, CompanyID and
    UserID, when the body decodes to a list: without an identifier
    [clients], [jobs] and [tasks] return that list whole; with one, and
    every element carrying the identifying field (ClientID, Number, Code),
    they return a list of length 0 or 1, whose single element is an
    element of the collection with the field equal to the identifier, and
    which is empty exactly when no element matches; no exception is
    raised. *)
Theorem lookup_by_identifier `{Env} (m : lookup) (self : instance) (l : loc)
    (c u id : value) (items : list value) (w : world) :
  ready self l c u ->
  json_loads (reply w l (lookup_url m c u)) = Some (VList items) ->
  (id <> VNone -> Forall (has_field (lookup_field m)) items) ->
  (id = VNone -> (call m self id w).1 = Return (VList items)) /\
  (id <> VNone ->
   exists out,
     (call m self id w).1 = Return (VList out) /\
     (length out <= 1)%nat /\
     (forall x, out = [x] -> x ∈ items /\ matches (lookup_field m) id x) /\
     (out = [] <-> forall x, x ∈ items -> ~ matches (lookup_field m) id x)).
Proof.
  intros Hr Hd Hf. rewrite (call_run m self l c u id _ w Hr Hd). split.
  - intros ->. reflexivity.
  - intros Hid. pose proof (proj2 (py_ne_None id) Hid) as ->. simpl.
    apply scan_spec. auto.
Qed.

Lemma lookup_by_identifier_witness :
  exists out,
    (call (H := Sample.script_env) Clients Sample.ct (VStr "7") Sample.w1).1
      = Return (VList out) /\
    (length out <= 1)%nat /\
    (forall x, out = [x] ->
       x ∈ [Sample.record [("ClientID", VStr "7"); ("Name", VStr "Acme")];
            Sample.record [("ClientID", VStr "8"); ("Name", VStr "Globex")]] /\
       matches "ClientID" (VStr "7") x) /\
    (out = [] <->
     forall x,
       x ∈ [Sample.record [("ClientID", VStr "7"); ("Name", VStr "Acme")];
            Sample.record [("ClientID", VStr "8"); ("Name", VStr "Globex")]] ->
       ~ matches "ClientID" (VStr "7") x).
Proof.
  refine (proj2 (lookup_by_identifier (H := Sample.script_env) Clients
                   Sample.ct 0%nat (VStr "c9") (VStr "u4") (VStr "7") _
                   Sample.w1 ct_ready _ _) _).
  - vm_compute. reflexivity.
  - intros _. repeat constructor; eexists; vm_compute; reflexivity.
  - discriminate.
Defined.

(** C1, as stated, fails: a client record without [ClientID] makes
    [clients("7")] raise [KeyError] instead of returning a list. *)
Lemma clients_record_without_id :
  (clients (H := Sample.odd_env) Sample.ct (VStr "7") Sample.w1).1
    = Raise (KeyError "ClientID") /\
  ~ (exists out,
       (clients (H := Sample.odd_env) Sample.ct (VStr "7") Sample.w1).1
         = Return (VList out)).
Proof.
  assert (E : (clients (H := Sample.odd_env) Sample.ct (VStr "7") Sample.w1).1
              = Raise (KeyError "ClientID")) by (vm_compute; reflexivity).
  split; [exact E |]. intros (out & Hout). rewrite E in Hout. discriminate.
Qed.

(** *** The parse helper *)

Lemma parse_script `{Env} (s : string) (default : value) (w : world) :
  logging_bound = true -> json_loads s = None ->
  _parse s default w = (Return default, w).
Proof. intros Hl Hs. unfold _parse. now rewrite Hs, Hl. Qed.

Lemma parse_module `{Env} (s : string) (default : value) (w : world) :
  logging_bound = false -> json_loads s = None ->
  _parse s default w =
    (Raise (NameError "global name 'logging' is not defined"), w).
Proof. intros Hl Hs. unfold _parse. now rewrite Hs, Hl. Qed.

(** C3: when the module is imported rather than run as a script, the name
    [logging] is unbound, and [_parse] on text that is not JSON raises
    [NameError] instead of returning the default (here the default is the
    empty list and the text an HTML page). *)
Theorem parse_malformed_in_module :
  Sample.loads Sample.known "<html>Not Found</html>" = None /\
  _parse (H := Sample.module_env) "<html>Not Found</html>" (VList []) Sample.w1
    = (Raise (NameError "global name 'logging' is not defined"), Sample.w1).
Proof. split; reflexivity. Qed.

(** *** [user] *)

Lemma format_user_url `{Env} (c u : value) :
  py_format "Companies/%s/Users/" [c; u] =
    Raise (TypeError "not all arguments converted during string formatting").
Proof. reflexivity. Qed.

Lemma getattr_value_state `{Env} (self : instance) (name : string) (w : world) :
  (getattr_value self name w).2 = w.
Proof.
  unfold getattr_value, getattr, attr_value. munfold.
  destruct (self !! name) as [[l|v]|]; reflexivity.
Qed.

(** C6: [user] never sends its request.  Whatever the instance and the
    arguments, it raises before [_get] is reached and leaves the state as
    it was: the format "Companies/%s/Users/" has one conversion for the
    two arguments it is given. *)
Theorem user_always_raises `{Env} (self : instance) (company_id user_id : value)
    (w : world) :
  exists e, user self company_id user_id w = (Raise e, w).
Proof.
  unfold user.
  assert (Hc : exists r,
             (if py_eq company_id VNone
              then getattr_value self "CompanyID" else mret company_id) w = (r, w)).
  { destruct (py_eq company_id VNone); [| eexists; reflexivity].
    pose proof (getattr_value_state self "CompanyID" w) as Hs.
    destruct (getattr_value self "CompanyID" w) as [r w']. simpl in Hs.
    subst. eauto. }
  assert (Hu : exists r,
             (if py_eq user_id VNone
              then getattr_value self "UserID" else mret user_id) w = (r, w)).
  { destruct (py_eq user_id VNone); [| eexists; reflexivity].
    pose proof (getattr_value_state self "UserID" w) as Hs.
    destruct (getattr_value self "UserID" w) as [r w']. simpl in Hs.
    subst. eauto. }
  destruct Hc as (rc & Hc), Hu as (ru & Hu).
  unfold mbind at 1, M_bind at 1. rewrite Hc.
  destruct rc as [c|e]; [| eauto].
  unfold mbind at 1, M_bind at 1. rewrite Hu.
  destruct ru as [u|e]; [| eauto].
  unfold mbind at 1, M_bind at 1. unfold lift. rewrite format_user_url.
  eauto.
Qed.

Example user_on_sample :
  user (H := Sample.script_env) Sample.ct VNone VNone Sample.w1 =
    (Raise (TypeError "not all arguments converted during string formatting"),
     Sample.w1).
Proof. reflexivity. Qed.

(** *** [jobs] and the [withChildIDs] parameter *)

(** C10: the one request [jobs] sends goes to the Jobs URL followed by
    [?withChildIDs=true] exactly when [with_child_ids == True] holds, and
    by nothing otherwise; a non-empty string and the integer 2 are truthy
    but do not compare equal to [True], so they give the URL that [False]
    gives. *)
Theorem jobs_with_child_ids `{Env} (self : instance) (l : loc)
    (c u job_number with_child_ids : value) (w : world) :
  ready self l c u ->
  (exists q,
     sent (jobs self job_number with_child_ids w).2 =
       (sent w ++ [get_request w l (user_path c u "/Jobs" ++ q)])%list /\
     (py_eq with_child_ids (VBool true) = true -> q = "?withChildIDs=true") /\
     (py_eq with_child_ids (VBool true) = false -> q = EmptyString)) /\
  (forall v, py_eq v (VBool true) = py_eq with_child_ids (VBool true) ->
     sent (jobs self job_number v w).2 =
     sent (jobs self job_number with_child_ids w).2) /\
  (py_truthy (VStr "yes") = true /\ py_eq (VStr "yes") (VBool true) = false) /\
  (py_truthy (VInt 2) = true /\ py_eq (VInt 2) (VBool true) = false) /\
  py_eq (VBool false) (VBool true) = false.
Proof.
  intros Hr.
  assert (Hs : forall v, sent (jobs self job_number v w).2 =
                 (sent w ++ [get_request w l (lookup_url (Jobs v) c u)])%list).
  { intros v. change (jobs self job_number v) with (call (Jobs v) self job_number).
    rewrite (call_state (Jobs v) self l c u job_number w Hr). reflexivity. }
  split; [| split; [| repeat split]].
  - rewrite Hs. simpl lookup_url. destruct (py_eq with_child_ids (VBool true)).
    + exists "?withChildIDs=true".
      split; [reflexivity |]. split; [reflexivity | discriminate].
    + exists EmptyString. rewrite str_app_nil.
      split; [reflexivity |]. split; [discriminate | reflexivity].
  - intros v Hv. rewrite !Hs. simpl lookup_url. rewrite Hv. reflexivity.
Qed.

Lemma jobs_with_child_ids_witness :
  sent (jobs (H := Sample.script_env) Sample.ct VNone (VInt 2) Sample.w1).2 =
  sent (jobs (H := Sample.script_env) Sample.ct VNone (VBool false) Sample.w1).2.
Proof.
  refine (proj1 (proj2 (jobs_with_child_ids (H := Sample.script_env) Sample.ct
                          0%nat (VStr "c9") (VStr "u4") VNone (VBool false)
                          Sample.w1 ct_ready)) (VInt 2) _).
  reflexivity.
Defined.

(** *** The header dictionaries of [_get] and [_post] *)

Definition content_type : string := "application/json; charset=utf-8".

Lemma size_nonempty (d : gmap string string) :
  d <> ∅ -> negb (Nat.eqb (size d) 0) = true.
Proof.
  intros Hd. destruct (Nat.eqb (size d) 0) eqn:E; [| reflexivity].
  apply Nat.eqb_eq in E. apply map_size_empty_iff in E. contradiction.
Qed.

Lemma merge_in_place `{Env} (self : instance) (l0 l : loc)
    (d : gmap string string) (w : world) :
  self !! "_ClickTime__headers" = Some (AHeaders l0) ->
  heap w !! l = Some d -> d <> ∅ ->
  merge_headers self (Some l) w =
    (Return l, World (<[l := stored w l0 ∪ d]> (heap w)) (sent w)).
Proof.
  intros Hl Hd Hne. unfold merge_headers, self_headers, getattr.
  rewrite Hl. munfold. rewrite Hd. simpl.
  rewrite (size_nonempty d Hne). reflexivity.
Qed.

Lemma merge_copy `{Env} (self : instance) (l0 : loc) (headers : option loc)
    (w : world) :
  self !! "_ClickTime__headers" = Some (AHeaders l0) ->
  headers = None \/ (exists l, headers = Some l /\ heap w !! l = Some ∅) ->
  merge_headers self headers w =
    (Return (fresh (dom (heap w))),
     World (<[fresh (dom (heap w)) := stored w l0]> (heap w)) (sent w)).
Proof.
  intros Hl Hcase. unfold merge_headers, self_headers, getattr.
  rewrite Hl. munfold. destruct Hcase as [-> | (l & -> & Hd)].
  - reflexivity.
  - rewrite Hd. reflexivity.
Qed.

Lemma get_after_merge `{Env} (self : instance) (url : string)
    (headers : option loc) (w w' : world) (h : loc) :
  merge_headers self headers w = (Return h, w') ->
  (_get self url headers w).2 =
    World (heap w')
          (sent w' ++ [Request "GET" ("/api/1.0/" ++ url)
                         (default ∅ (heap w' !! h)) None]).
Proof.
  intros Hm. unfold _get. unfold mbind at 1, M_bind at 1. rewrite Hm.
  munfold. unfold send. simpl. rewrite str_app_nil. reflexivity.
Qed.

Lemma post_after_merge `{Env} (self : instance) (url : string)
    (headers : option loc) (data : option string) (w w' : world) (h : loc) :
  merge_headers self headers w = (Return h, w') ->
  (_post self url headers data w).2 =
    World (<[h := <[ "content-type" := content_type ]>
                    (default ∅ (heap w' !! h))]> (heap w'))
          (sent w' ++ [Request "POST" ("/api/1.0/" ++ url)
                         (<[ "content-type" := content_type ]>
                            (default ∅ (heap w' !! h))) data]).
Proof.
  intros Hm. unfold _post. unfold mbind at 1, M_bind at 1. rewrite Hm.
  munfold. unfold send. simpl. rewrite lookup_insert_eq. simpl.
  rewrite str_app_nil. reflexivity.
Qed.

(** C9, as amended.  A caller's header dictionary that is not empty is
    updated in place: after [_get] it holds the stored headers over its own
    entries (a stored entry replaces the caller's entry of the same key),
    after [_post] the same with the content-type entry set, and the request
    carries exactly that dictionary.  When no dictionary is passed, or an
    empty one, the request carries a fresh copy of the stored headers (with
    the content-type entry for [_post]) and every dictionary that existed
    before the call, the caller's included, is left as it was. *)
Theorem headers_merged_in_place `{Env} (self : instance) (l0 : loc)
    (url : string) (data : option string) (headers : option loc) (w : world) :
  self !! "_ClickTime__headers" = Some (AHeaders l0) ->
  let s := stored w l0 in
  (forall l d, headers = Some l -> heap w !! l = Some d -> d <> ∅ ->
     (_get self url headers w).2 =
       World (<[l := s ∪ d]> (heap w))
             (sent w ++ [Request "GET" ("/api/1.0/" ++ url) (s ∪ d) None]) /\
     (_post self url headers data w).2 =
       World (<[l := <[ "content-type" := content_type ]> (s ∪ d)]> (heap w))
             (sent w ++ [Request "POST" ("/api/1.0/" ++ url)
                           (<[ "content-type" := content_type ]> (s ∪ d)) data]) /\
     (forall k v, s !! k = Some v -> (s ∪ d) !! k = Some v) /\
     (forall k, s !! k = None -> (s ∪ d) !! k = d !! k)) /\
  (headers = None \/ (exists l, headers = Some l /\ heap w !! l = Some ∅) ->
     let f := fresh (dom (heap w)) in
     (_get self url headers w).2 =
       World (<[f := s]> (heap w))
             (sent w ++ [Request "GET" ("/api/1.0/" ++ url) s None]) /\
     (_post self url headers data w).2 =
       World (<[f := <[ "content-type" := content_type ]> s]> (heap w))
             (sent w ++ [Request "POST" ("/api/1.0/" ++ url)
                           (<[ "content-type" := content_type ]> s) data]) /\
     (forall l d, heap w !! l = Some d ->
        heap (_get self url headers w).2 !! l = Some d /\
        heap (_post self url headers data w).2 !! l = Some d)).
Proof.
  intros Hl s. split.
  - intros l d -> Hd Hne.
    pose proof (merge_in_place self l0 l d w Hl Hd Hne) as Hm.
    split; [| split; [| split]].
    + rewrite (get_after_merge _ _ _ _ _ _ Hm). simpl.
      rewrite lookup_insert_eq. reflexivity.
    + rewrite (post_after_merge _ _ _ _ _ _ _ Hm). simpl.
      rewrite lookup_insert_eq. simpl. rewrite insert_insert_eq. reflexivity.
    + intros k v Hk. apply lookup_union_Some_l. exact Hk.
    + intros k Hk. apply lookup_union_r. exact Hk.
  - intros Hcase f.
    pose proof (merge_copy self l0 headers w Hl Hcase) as Hm. fold f in Hm.
    assert (Hf : f <> f -> False) by congruence.
    assert (Hg : (_get self url headers w).2 =
                 World (<[f := s]> (heap w))
                   (sent w ++ [Request "GET" ("/api/1.0/" ++ url) s None])).
    { rewrite (get_after_merge _ _ _ _ _ _ Hm). simpl.
      rewrite lookup_insert_eq. reflexivity. }
    assert (Hp : (_post self url headers data w).2 =
                 World (<[f := <[ "content-type" := content_type ]> s]> (heap w))
                   (sent w ++ [Request "POST" ("/api/1.0/" ++ url)
                                 (<[ "content-type" := content_type ]> s) data])).
    { rewrite (post_after_merge _ _ _ _ _ _ _ Hm). simpl.
      rewrite lookup_insert_eq. simpl. rewrite insert_insert_eq. reflexivity. }
    split; [exact Hg |]. split; [exact Hp |].
    intros l d Hd. rewrite Hg, Hp. simpl.
    assert (Hfl : f <> l).
    { intros <-. pose proof (is_fresh (dom (heap w))) as Hfr.
      apply not_elem_of_dom in Hfr. fold f in Hfr. congruence. }
    rewrite !lookup_insert_ne by assumption. auto.
Qed.

Lemma headers_merged_in_place_witness :
  (_get (H := Sample.script_env) Sample.ct "Session" (Some 2%nat) Sample.w_mine).2 =
    World (<[2%nat := stored Sample.w_mine 0 ∪ Sample.mine]> (heap Sample.w_mine))
          (sent Sample.w_mine ++
             [Request "GET" "/api/1.0/Session"
                (stored Sample.w_mine 0 ∪ Sample.mine) None]) /\
  (stored Sample.w_mine 0 ∪ Sample.mine) !! "Authorization"
    = Some "Basic alice:secret".
Proof.
  destruct (proj1 (headers_merged_in_place (H := Sample.script_env) Sample.ct
                     0%nat "Session" None (Some 2%nat) Sample.w_mine eq_refl)
              2%nat Sample.mine eq_refl eq_refl)
    as (Hg & _ & Hs & _).
  - intros E. apply (f_equal (fun d => d !! "Accept")) in E.
    vm_compute in E. discriminate.
  - split; [exact Hg |]. apply Hs. reflexivity.
Defined.

(** C9, as stated, fails for an empty dictionary: the caller passes one,
    [_get] and [_post] leave it empty (no Authorization entry is inserted)
    and send a fresh copy of the stored headers instead. *)
Lemma empty_headers_not_updated :
  heap Sample.w_empty !! 2%nat = Some ∅ /\
  heap (_get (H := Sample.script_env) Sample.ct "Session" (Some 2%nat)
          Sample.w_empty).2 !! 2%nat = Some ∅ /\
  heap (_post (H := Sample.script_env) Sample.ct "Session" (Some 2%nat) None
          Sample.w_empty).2 !! 2%nat = Some ∅ /\
  req_headers <$> last (sent (_get (H := Sample.script_env) Sample.ct "Session"
                                (Some 2%nat) Sample.w_empty).2)
    = Some Sample.hdrs.
Proof. repeat split; reflexivity. Qed.

(** *** Construction *)

Section Construction.
Context `{Env}.

(** The header dictionary the constructor stores, the Session request it
    sends and what the parse helper makes of the answer. *)
Definition auth_headers (username password : value) : gmap string string :=
  {[ "Authorization" :=
       "Basic " ++ drop_last (b64encodestring
                                (py_str username ++ ":" ++ py_str password)) ]}.

Definition session_request (username password : value) : request :=
  Request "GET" "/api/1.0/Session" (auth_headers username password) None.

Definition parsed_session (username password : value) (w : world)
  : result value :=
  (_parse (resp_data (server (sent w) (session_request username password)))
          VNone w).1.

(** Names without a leading underscore. *)
Definition is_public (name : string) : bool := negb (String.prefix "_" name).

Definition coerced (v : value) : attr := AVal (VStr (py_str v)).

(** What [str()] accepts: an ASCII name and, when the value is text, ASCII
    text. *)
Definition str_able (k : string) (v : value) : bool :=
  ascii_text k && match v with VStr t => ascii_text t | _ => true end.

Definition coercible (s : value) : bool :=
  match s with
  | VDict d => map_fold (fun k v acc => str_able k v && acc) true d
  | _ => true
  end.

(** A response without the key: a dictionary that has none, or an object
    that is no dictionary. *)
Definition lacks_CompanyID (s : value) : Prop :=
  match s with
  | VDict d => d !! "CompanyID" = None
  | _ => True
  end.

Lemma coercible_items (d : gmap string value) :
  coercible (VDict d) = true <->
  Forall (fun kv : string * value => str_able kv.1 kv.2 = true) (map_to_list d).
Proof.
  unfold coercible. rewrite map_fold_foldr.
  induction (map_to_list d) as [|[k v] l IH]; simpl.
  - split; [constructor | reflexivity].
  - rewrite andb_true_iff, IH. split.
    + intros (Hx & Hl). constructor; assumption.
    + intros Hl. apply Forall_cons in Hl. exact Hl.
Qed.

Lemma setattr_str_spec (self : instance) (kv : string * value) :
  (str_able kv.1 kv.2 = true /\
   setattr_str self kv = Return (<[kv.1 := coerced kv.2]> self)) \/
  (str_able kv.1 kv.2 = false /\
   exists msg, setattr_str self kv = Raise (UnicodeEncodeError msg)).
Proof.
  destruct kv as [k v]. unfold setattr_str, str_able, str_unicode, coerced.
  simpl. destruct (ascii_text k); simpl; [| right; eauto].
  destruct v as [| b | z | t | xs | d]; try (left; split; reflexivity).
  destruct (ascii_text t); [left; split; reflexivity | right; eauto].
Qed.

Lemma setattr_each_spec (items : list (string * value)) (self : instance) :
  match setattr_each self items with
  | Return self' =>
      Forall (fun kv : string * value => str_able kv.1 kv.2 = true) items /\
      self' = foldl (fun (self : instance) (kv : string * value) =>
                       <[kv.1 := coerced kv.2]> self) self items
  | Raise e =>
      ~ Forall (fun kv : string * value => str_able kv.1 kv.2 = true) items /\
      exists msg, e = UnicodeEncodeError msg
  end.
Proof.
  revert self. induction items as [|kv rest IH]; intros self; simpl.
  - split; [constructor | reflexivity].
  - destruct (setattr_str_spec self kv) as [(Hok & ->) | (Hno & msg & ->)].
    + specialize (IH (<[kv.1 := coerced kv.2]> self)).
      destruct (setattr_each _ rest) as [self'|e].
      * destruct IH as (Hl & ->). split; [constructor; assumption | reflexivity].
      * destruct IH as (Hl & Hm). split; [| exact Hm].
        intros Hall. apply Forall_cons in Hall. apply Hl, Hall.
    + split; [| eauto]. intros Hall. apply Forall_cons in Hall.
      destruct Hall as (Hx & _). congruence.
Qed.

Lemma set_attributes_list (l : list (string * value)) (base : instance)
    (k : string) :
  NoDup l.*1 ->
  foldl (fun (self : instance) (kv : string * value) =>
           <[kv.1 := coerced kv.2]> self) base l !! k =
    match (list_to_map l : gmap string value) !! k with
    | Some v => Some (coerced v)
    | None => base !! k
    end.
Proof.
  revert base. induction l as [|[k0 v0] l IH]; intros base Hnd.
  - reflexivity.
  - apply NoDup_cons in Hnd as (Hk0 & Hnd). simpl. rewrite (IH _ Hnd).
    destruct (decide (k = k0)) as [-> | Hne].
    + rewrite lookup_insert_eq.
      rewrite (not_elem_of_list_to_map_1 (M := gmap string) l k0 Hk0).
      rewrite lookup_insert_eq. reflexivity.
    + rewrite !(lookup_insert_ne _ k0 k) by congruence. reflexivity.
Qed.

(** When the loop ends, every item of the session is an attribute. *)
Lemma set_attributes_lookup (base self : instance) (d : gmap string value)
    (k : string) :
  set_attributes base d = Return self ->
  self !! k =
    match d !! k with
    | Some v => Some (coerced v)
    | None => base !! k
    end.
Proof.
  unfold set_attributes. intros E.
  pose proof (setattr_each_spec (map_to_list d) base) as Hs.
  rewrite E in Hs. destruct Hs as (_ & ->).
  rewrite set_attributes_list by apply NoDup_fst_map_to_list.
  rewrite list_to_map_to_list. reflexivity.
Qed.

(** The loop ends exactly on a session [str()] accepts throughout, and
    what stops it otherwise is [UnicodeEncodeError]. *)
Lemma set_attributes_returns (base : instance) (d : gmap string value) :
  coercible (VDict d) = true ->
  exists self, set_attributes base d = Return self.
Proof.
  intros Hc. apply coercible_items in Hc. unfold set_attributes.
  pose proof (setattr_each_spec (map_to_list d) base) as Hs.
  destruct (setattr_each base (map_to_list d)) as [self|e]; [eauto |].
  destruct Hs as (Hno & _). contradiction.
Qed.

Lemma set_attributes_raises (base : instance) (d : gmap string value) :
  coercible (VDict d) = false ->
  exists msg, set_attributes base d = Raise (UnicodeEncodeError msg).
Proof.
  intros Hc. unfold set_attributes.
  pose proof (setattr_each_spec (map_to_list d) base) as Hs.
  destruct (setattr_each base (map_to_list d)) as [self|e].
  - destruct Hs as (Hall & _). apply coercible_items in Hall. congruence.
  - destruct Hs as (_ & msg & ->). eauto.
Qed.

(** The constructor, step by step: what it returns is decided by the
    parsed session response. *)
Lemma init_run (username password : value) (w : world) :
  exists (l : loc) (w' : world),
    __init__ username password w =
      (match parsed_session username password w with
       | Return s =>
           if py_eq s VNone then
             Raise (StandardError "Failure to establish session information")
           else
             match s with
             | VDict d =>
                 if bool_decide (is_Some (d !! "CompanyID")) then
                   set_attributes
                     (<["_ClickTime__session" := AVal s]>
                        {["_ClickTime__headers" := AHeaders l]}) d
                 else Raise (StandardError "Session information lacks CompanyID")
             | _ => Raise (AttributeError
                             ("'" ++ type_name s ++
                              "' object has no attribute 'has_key'"))
             end
       | Raise e => Raise e
       end, w').
Proof.
  unfold __init__, parsed_session, session. munfold. simpl.
  rewrite !str_app_nil.
  set (l := fresh (dom (heap w))).
  set (w1 := World _ (sent w)).
  destruct (get_run {["_ClickTime__headers" := AHeaders l]} l "Session" w1)
    as (st & rs & ->); [apply lookup_singleton_eq |].
  assert (Hb : reply w1 l "Session" =
               resp_data (server (sent w) (session_request username password))).
  { unfold reply, get_request, stored, w1. simpl.
    rewrite lookup_insert_eq. reflexivity. }
  simpl fst. rewrite Hb.
  set (body := resp_data _).
  unfold _parse.
  destruct (json_loads body) as [s|]; [| destruct logging_bound];
    munfold; simpl; try (exists l; eexists; reflexivity).
  destruct (py_eq s VNone); [exists l; eexists; reflexivity |].
  destruct s; try (exists l; eexists; reflexivity).
  destruct (bool_decide (is_Some (d !! "CompanyID"))); exists l; eexists; reflexivity.
Qed.

Lemma parsed_session_raise (username password : value) (w : world) (e : exn) :
  parsed_session username password w = Raise e ->
  e = NameError "global name 'logging' is not defined".
Proof.
  unfold parsed_session, _parse.
  destruct (json_loads _); [discriminate |].
  destruct logging_bound; [discriminate |]. simpl. congruence.
Qed.

End Construction.




Example construction_on_sample :
  parsed_session (H := Sample.script_env) (VStr "alice") (VStr "secret")
    Sample.w0 = Return Sample.session_doc /\
  (__init__ (H := Sample.script_env) (VStr "alice") (VStr "secret")
     Sample.w0).1 = Return Sample.ct /\
  Sample.ct !! "SecurityLevel" = Some (AVal (VStr "2")).
Proof. repeat split; reflexivity. Qed.

(** *** The body [create_timeentry] posts *)

Definition contains (part whole : string) : Prop :=
  exists pre post, whole = pre ++ part ++ post.

Lemma str_app_assoc (a b c : string) : (a ++ b) ++ c = a ++ b ++ c.
Proof. induction a as [|x a IH]; simpl; [reflexivity | now rewrite IH]. Qed.

Lemma contains_app_l (part a b : string) :
  contains part a -> contains part (a ++ b).
Proof.
  intros (pre & post & ->). exists pre, (post ++ b).
  now rewrite !str_app_assoc.
Qed.

Lemma contains_app_r (part a b : string) :
  contains part b -> contains part (a ++ b).
Proof.
  intros (pre & post & ->). exists (a ++ pre), post.
  now rewrite !str_app_assoc.
Qed.

Lemma contains_refl (s : string) : contains s s.
Proof. exists EmptyString, EmptyString. simpl. now rewrite str_app_nil. Qed.

Lemma concat_contains (sep x : string) (l : list string) :
  x ∈ l -> contains x (String.concat sep l).
Proof.
  induction l as [|y l IH]; intros Hx; [inversion Hx |].
  apply elem_of_cons in Hx as [<- | Hx].
  - destruct l; simpl; [apply contains_refl |].
    apply contains_app_l, contains_refl.
  - destruct l as [|z l]; [inversion Hx |].
    change (String.concat sep (y :: z :: l))
      with (y ++ sep ++ String.concat sep (z :: l)).
    apply contains_app_r, contains_app_r, IH, Hx.
Qed.

Lemma dumps_data_contains (d : gmap string jitem) (k : string) (i : jitem) :
  d !! k = Some i ->
  contains (dumps_entry k (dumps_item i)) (dumps_data d).
Proof.
  intros Hk. unfold dumps_data.
  apply contains_app_r, contains_app_l, concat_contains.
  rewrite map_fold_foldr.
  apply elem_of_map_to_list in Hk.
  induction (map_to_list d) as [|[k' i'] l IH]; [inversion Hk |].
  apply elem_of_cons in Hk as [E | Hk]; simpl.
  - injection E as <- <-. left.
  - right. apply IH, Hk.
Qed.

Lemma ascii_digit (n : Z) : ascii_char (digit_char (n mod 10)) = true.
Proof.
  assert (K : Forall (fun k => ascii_char (digit_char k) = true) (seqZ 0 10)).
  { refine (bool_decide_unpack _ _). vm_compute. exact I. }
  rewrite Forall_forall in K. apply K, elem_of_seqZ.
  pose proof (Z.mod_pos_bound n 10). lia.
Qed.

Lemma ascii_text_app (a b : string) :
  ascii_text (a ++ b) = ascii_text a && ascii_text b.
Proof.
  induction a as [|x a IH]; simpl; [reflexivity |].
  now rewrite IH, andb_assoc.
Qed.

Lemma ascii_two_digits (n : Z) : ascii_text (two_digits n) = true.
Proof. unfold two_digits. cbn [ascii_text]. now rewrite !ascii_digit. Qed.

Section TimeEntry.
Context `{Env}.

(** The date an entry is filed under: today when none is given, the parsed
    text, or the date of the native value. *)
Definition entry_date (date : datearg) : option Datetime.date :=
  match date with
  | ANone => Some today.1
  | AStr s => match strptime_Ymd s with Return d => Some d | Raise _ => None end
  | ADate d | ADateTime d _ => Some d
  end.

Definition Ymd (d : Datetime.date) : string :=
  four_digits (year d) ++ two_digits (month d) ++ two_digits (day d).

Definition comment_sent (comment : value) : value :=
  if py_eq comment VNone then VStr EmptyString else comment.

Lemma strftime_Ymd_ok (d : Datetime.date) :
  1900 <= year d -> strftime_Ymd d = Return (Ymd d).
Proof.
  intros Hy. unfold strftime_Ymd.
  destruct (Z.ltb_spec (year d) 1900); [lia | reflexivity].
Qed.

(** The dictionary the method serializes. *)
Definition entry_data (job_id task_id : value) (ds h : string)
    (comment break_time : value) : gmap string jitem :=
  let data : gmap string jitem :=
    <["Comment" := JVal (VStr EmptyString)]>
      (<["Hours" := JFloat h]>
         (<["Date" := JVal (VStr ds)]>
            (<["TaskID" := JVal task_id]> {["JobID" := JVal job_id]}))) in
  let data := if py_ne comment VNone
              then <["Comment" := JVal comment]> data else data in
  if py_ne break_time VNone
  then <["BreakTime" := JVal break_time]> data else data.

Lemma entry_data_lookup (job_id task_id : value) (ds h : string)
    (comment break_time : value) (k : string) :
  entry_data job_id task_id ds h comment break_time !! k =
    if String.eqb k "JobID" then Some (JVal job_id)
    else if String.eqb k "TaskID" then Some (JVal task_id)
    else if String.eqb k "Date" then Some (JVal (VStr ds))
    else if String.eqb k "Hours" then Some (JFloat h)
    else if String.eqb k "Comment" then Some (JVal (comment_sent comment))
    else if String.eqb k "BreakTime" then
      (if py_eq break_time VNone then None else Some (JVal break_time))
    else None.
Proof.
  unfold entry_data, comment_sent, py_ne.
  destruct (String.eqb_spec k "JobID") as [-> | H1];
    [destruct (py_eq break_time VNone), (py_eq comment VNone); reflexivity |].
  destruct (String.eqb_spec k "TaskID") as [-> | H2];
    [destruct (py_eq break_time VNone), (py_eq comment VNone); reflexivity |].
  destruct (String.eqb_spec k "Date") as [-> | H3];
    [destruct (py_eq break_time VNone), (py_eq comment VNone); reflexivity |].
  destruct (String.eqb_spec k "Hours") as [-> | H4];
    [destruct (py_eq break_time VNone), (py_eq comment VNone); reflexivity |].
  destruct (String.eqb_spec k "Comment") as [-> | H5];
    [destruct (py_eq break_time VNone), (py_eq comment VNone); reflexivity |].
  destruct (String.eqb_spec k "BreakTime") as [-> | H6];
    [destruct (py_eq break_time VNone), (py_eq comment VNone); reflexivity |].
  destruct (py_eq break_time VNone), (py_eq comment VNone); simpl;
    rewrite ?lookup_insert_ne by congruence;
    apply lookup_singleton_ne; congruence.
Qed.

Lemma ascii_Ymd (d : Datetime.date) : ascii_text (Ymd d) = true.
Proof.
  unfold Ymd. rewrite !ascii_text_app, !ascii_two_digits.
  unfold four_digits. cbn [ascii_text].
  now rewrite !ascii_digit, ascii_two_digits.
Qed.

Lemma ascii_data_true (d : gmap string jitem) :
  (forall k i, d !! k = Some i -> ascii_text k && ascii_item i = true) ->
  ascii_data d = true.
Proof.
  intros Hall. unfold ascii_data. rewrite map_fold_foldr.
  assert (Hl : Forall (fun kv => ascii_text kv.1 && ascii_item kv.2 = true)
                 (map_to_list d)).
  { apply Forall_forall. intros [k i] Hin.
    apply Hall, elem_of_map_to_list, Hin. }
  induction Hl as [|[k i] rest Hx _ IH]; simpl; [reflexivity |].
  simpl in Hx. now rewrite Hx, IH.
Qed.

(** On ASCII text the serializer writes the dictionary itself. *)
Lemma entry_data_ascii (job_id task_id : value) (ds h : string)
    (comment break_time : value) :
  ascii_value job_id = true -> ascii_value task_id = true ->
  ascii_text ds = true ->
  ascii_value comment = true -> ascii_value break_time = true ->
  json_dumps (entry_data job_id task_id ds h comment break_time) =
    Return (dumps_data (entry_data job_id task_id ds h comment break_time)).
Proof.
  intros Hj Ht Hd Hc Hb. unfold json_dumps.
  replace (ascii_data _) with true; [reflexivity |].
  symmetry. apply ascii_data_true. intros k i Hk.
  rewrite entry_data_lookup in Hk.
  destruct (String.eqb_spec k "JobID") as [-> | _];
    [injection Hk as <-; exact Hj |].
  destruct (String.eqb_spec k "TaskID") as [-> | _];
    [injection Hk as <-; exact Ht |].
  destruct (String.eqb_spec k "Date") as [-> | _];
    [injection Hk as <-; exact Hd |].
  destruct (String.eqb_spec k "Hours") as [-> | _];
    [injection Hk as <-; reflexivity |].
  destruct (String.eqb_spec k "Comment") as [-> | _].
  { injection Hk as <-. unfold comment_sent.
    destruct (py_eq comment VNone); [reflexivity | exact Hc]. }
  destruct (String.eqb_spec k "BreakTime") as [-> | _]; [| discriminate].
  destruct (py_eq break_time VNone); [discriminate |].
  injection Hk as <-. exact Hb.
Qed.

Lemma create_timeentry_sent (self : instance) (l : loc)
    (c u job_id task_id hours comment break_time : value) (date : datearg)
    (d : Datetime.date) (h body : string) (w : world) :
  ready self l c u ->
  entry_date date = Some d -> 1900 <= year d ->
  float_json hours = Return h ->
  json_dumps (entry_data job_id task_id (Ymd d) h comment break_time) =
    Return body ->
  exists hs : gmap string string,
    sent (create_timeentry self job_id task_id hours date comment break_time w).2
      = (sent w ++ [Request "POST" ("/api/1.0/" ++ user_path c u "/TimeEntries")
                      hs (Some body)])%list.
Proof.
  intros Hr Hd Hy Hh Hb. pose proof Hr as (Hl & _).
  unfold create_timeentry.
  assert (Hdate : exists a,
            (match date with
             | ANone => mret (ADateTime today.1 today.2)
             | AStr s => d ← lift (strptime_Ymd s); mret (ADateTime d 0)
             | _ => mret date
             end) w = (Return a, w) /\ strftime a = Return (Ymd d)).
  { destruct date as [| s | d' | d' us]; simpl in Hd.
    - injection Hd as <-. eexists. split; [reflexivity |].
      apply strftime_Ymd_ok, Hy.
    - munfold. destruct (strptime_Ymd s) as [d'|]; [| discriminate].
      injection Hd as <-. eexists. split; [reflexivity |].
      apply strftime_Ymd_ok, Hy.
    - injection Hd as <-. eexists. split; [reflexivity |].
      apply strftime_Ymd_ok, Hy.
    - injection Hd as <-. eexists. split; [reflexivity |].
      apply strftime_Ymd_ok, Hy. }
  destruct Hdate as (a & Ha & Hs).
  unfold mbind at 1, M_bind at 1. rewrite Ha.
  unfold mbind at 1, M_bind at 1. unfold lift at 1. rewrite Hs.
  unfold mbind at 1, M_bind at 1. unfold lift at 1. rewrite Hh.
  cbv zeta. fold (entry_data job_id task_id (Ymd d) h comment break_time).
  unfold mbind at 1, M_bind at 1. unfold lift at 1. rewrite Hb.
  unfold mbind at 1, M_bind at 1.
  rewrite (user_url_run _ _ _ _ _ _ Hr).
  replace (py_format "Companies/%s/Users/%s/TimeEntries" [c; u])
    with (Return (user_path c u "/TimeEntries")) by reflexivity.
  cbv iota beta. unfold mbind at 1, M_bind at 1.
  pose proof (merge_copy self l None w Hl (or_introl eq_refl)) as Hm.
  pose proof (post_after_merge self
                (user_path c u "/TimeEntries") None
                (Some body) w _ _ Hm) as Hp.
  destruct (_post self (user_path c u "/TimeEntries") None
              (Some body) w) as [[r|e] w2] eqn:Epost;
    simpl in Hp; subst w2.
  - rewrite parse_state. simpl. eexists. reflexivity.
  - simpl. eexists. reflexivity.
Qed.

End TimeEntry.




(** *** The command line: [create_timeentry JOB TASK HOURS] *)

Example cli_job_not_found :
  (cli_create_timeentry (H := Sample.script_env) Sample.ct
     ["999"; "DEV"; "2"] Sample.w1).1
    = Raise (SystemExit 2 "Could not find job with number '999'").
Proof. reflexivity. Qed.

Example cli_both_found :
  (cli_create_timeentry (H := Sample.script_env) Sample.ct
     ["100"; "DEV"; "2"; "20230115"] Sample.w1).1 = Return [].
Proof. reflexivity. Qed.

(** C8: the job 100 exists and no task has the code QA.  The task look-up
    returns the empty list, yet the harness does not report a parser error:
    after the task look-up it tests [len(jobs)] a second time, takes the
    last branch and fails on [tasks[0]] with [IndexError]. *)
Theorem cli_task_not_found :
  (jobs (H := Sample.script_env) Sample.ct (VStr "100") (VBool true)
     Sample.w1).1
    = Return (VList [Sample.record [("JobID", VStr "j1"); ("Number", VStr "100")]]) /\
  (tasks (H := Sample.script_env) Sample.ct (VStr "QA") Sample.w1).1
    = Return (VList []) /\
  (cli_create_timeentry (H := Sample.script_env) Sample.ct
     ["100"; "QA"; "2"] Sample.w1).1
    = Raise (IndexError "list index out of range") /\
  is_SystemExit (IndexError "list index out of range") = false.
Proof. repeat split; reflexivity. Qed.

(** *** Dates: parsing and printing *)

Lemma digit_in_char (n : Z) :
  0 <= n <= 9 -> digit_in 0 9 (digit_char n) = Some n.
Proof.
  intros Hn.
  assert (K : Forall (fun k => digit_in 0 9 (digit_char k) = Some k) (seqZ 0 10)).
  { refine (bool_decide_unpack _ _). vm_compute. exact I. }
  rewrite Forall_forall in K. apply K, elem_of_seqZ. lia.
Qed.

Lemma match_Y_digits (a b c d : Z) (rest : string) :
  0 <= a <= 9 -> 0 <= b <= 9 -> 0 <= c <= 9 -> 0 <= d <= 9 ->
  match_Y (String (digit_char a) (String (digit_char b)
             (String (digit_char c) (String (digit_char d) rest)))) =
    Some (a * 1000 + b * 100 + c * 10 + d, rest).
Proof.
  intros Ha Hb Hc Hd. unfold match_Y.
  rewrite (digit_in_char a Ha), (digit_in_char b Hb),
          (digit_in_char c Hc), (digit_in_char d Hd).
  reflexivity.
Qed.

Lemma four_digits_app (y : Z) (rest : string) :
  four_digits y ++ rest =
    String (digit_char (y / 1000 mod 10)) (String (digit_char (y / 100 mod 10))
      (String (digit_char (y / 10 mod 10)) (String (digit_char (y mod 10)) rest))).
Proof. reflexivity. Qed.

Lemma match_Y_four_digits (y : Z) (rest : string) :
  0 <= y <= 9999 -> match_Y (four_digits y ++ rest) = Some (y, rest).
Proof.
  intros Hy. rewrite four_digits_app.
  rewrite match_Y_digits by (Z.to_euclidean_division_equations; lia).
  f_equal. f_equal. Z.to_euclidean_division_equations. lia.
Qed.

Lemma match_md_two_digits (m d : Z) :
  1 <= m <= 12 -> 1 <= d <= 31 ->
  match_md (two_digits m ++ two_digits d) = Some (m, d, EmptyString).
Proof.
  intros Hm Hd.
  assert (K : Forall (fun m => Forall (fun d =>
                match_md (two_digits m ++ two_digits d) = Some (m, d, EmptyString))
                (seqZ 1 31)) (seqZ 1 12)).
  { refine (bool_decide_unpack _ _). vm_compute. exact I. }
  rewrite Forall_forall in K.
  assert (Hm' : m ∈ seqZ 1 12) by (apply elem_of_seqZ; lia).
  specialize (K m Hm'). rewrite Forall_forall in K.
  apply K. apply elem_of_seqZ. lia.
Qed.

Lemma days_in_month_le (y m : Z) : days_in_month y m <= 31.
Proof.
  unfold days_in_month.
  destruct (Z.eqb m 2); [destruct (is_leap y); lia |].
  destruct (_ || _); lia.
Qed.

(** Parsing the eight digits of a date gives the date back. *)
Lemma strptime_Ymd_roundtrip (d : date) :
  valid_date d = true -> strptime_Ymd (Ymd d) = Return d.
Proof.
  intros Hv. pose proof Hv as Hv'. unfold valid_date in Hv'.
  repeat (apply andb_prop in Hv' as [Hv' ?]).
  pose proof (days_in_month_le (year d) (month d)).
  unfold strptime_Ymd, Ymd.
  rewrite match_Y_four_digits by lia.
  rewrite match_md_two_digits by lia.
  simpl. destruct d as [y m dd]. simpl in *. rewrite Hv. reflexivity.
Qed.

Lemma strptime_raises_ValueError (s : string) (e : exn) :
  strptime_Ymd s = Raise e -> is_ValueError e = true.
Proof.
  unfold strptime_Ymd. destruct (match_Y s) as [[y r]|].
  - destruct (match_md r) as [[[m d] rest]|].
    + destruct (negb (String.eqb rest EmptyString)).
      * intros E. injection E as <-. reflexivity.
      * destruct (valid_date (Date y m d)); [discriminate |].
        intros E. injection E as <-. reflexivity.
    + intros E. injection E as <-. reflexivity.
  - intros E. injection E as <-. reflexivity.
Qed.

(** *** The time-entry query *)

Section TimeEntries.
Context `{Env}.

(** A date argument once text has been parsed; the query string the
    method appends to the URL, or the exception it raises instead. *)
Definition moment (a : datearg) : result datearg :=
  match a with
  | AStr s =>
      match strptime_Ymd s with
      | Return d => Return (ADateTime d 0)
      | Raise x => Raise x
      end
  | _ => Return a
  end.

Definition query (s e : datearg) : result string :=
  if negb (is_none s) && is_none e then
    match strftime s with
    | Return t => Return ("?date=" ++ t)
    | Raise x => Raise x
    end
  else if negb (is_none s) && negb (is_none e) then
    match py_sub e s with
    | Raise x => Raise x
    | Return delta =>
        if Z.ltb (7 * us_per_day) delta then
          Raise (ValueError "You can only request up to 7 days of timeentires")
        else
          match strftime s with
          | Raise x => Raise x
          | Return t1 =>
              match strftime e with
              | Raise x => Raise x
              | Return t2 => Return ("?startdate=" ++ t1 ++ "&enddate=" ++ t2)
              end
          end
    end
  else if is_none s && negb (is_none e) then
    Raise (ValueError "If enddate is provided you must provide startdate")
  else Return EmptyString.

Definition fetch (self : instance) (url : string) : M value :=
  r ← _get self url None; _parse r.1.1 VNone.

Lemma parse_date_run (a : datearg) (w : world) :
  parse_date a w = (moment a, w).
Proof.
  destruct a as [| s | d | d us]; try reflexivity.
  unfold parse_date. munfold. simpl. destruct (strptime_Ymd s); reflexivity.
Qed.

Lemma user_url_state (self : instance) (fmt : string) (w : world) :
  exists r, user_url self fmt w = (r, w).
Proof.
  unfold user_url.
  pose proof (getattr_value_state self "CompanyID" w) as Hc.
  destruct (getattr_value self "CompanyID" w) as [rc wc] eqn:Ec.
  simpl in Hc. subst wc.
  unfold mbind at 1, M_bind at 1. rewrite Ec.
  destruct rc as [c|x]; [| eauto].
  pose proof (getattr_value_state self "UserID" w) as Hu.
  destruct (getattr_value self "UserID" w) as [ru wu] eqn:Eu.
  simpl in Hu. subst wu.
  unfold mbind at 1, M_bind at 1. rewrite Eu.
  destruct ru as [u|x]; [| eauto].
  unfold lift. eauto.
Qed.

(** [timeentires], step by step. *)
Lemma timeentires_run (self : instance) (s e : datearg) (w : world)
    (r0 : result string) :
  user_url self "Companies/%s/Users/%s/Jobs" w = (r0, w) ->
  timeentires self s e w =
    match r0 with
    | Raise x => (Raise x, w)
    | Return url =>
        match moment s with
        | Raise x => (Raise x, w)
        | Return s' =>
            match moment e with
            | Raise x => (Raise x, w)
            | Return e' =>
                match query s' e' with
                | Raise x => (Raise x, w)
                | Return q => fetch self (url ++ q) w
                end
            end
        end
    end.
Proof.
  intros Hu. unfold timeentires.
  unfold mbind at 1, M_bind at 1. rewrite Hu.
  destruct r0 as [url|x]; [| reflexivity].
  unfold mbind at 1, M_bind at 1. rewrite parse_date_run.
  destruct (moment s) as [s'|x]; [| reflexivity].
  unfold mbind at 1, M_bind at 1. rewrite parse_date_run.
  destruct (moment e) as [e'|x]; [| reflexivity].
  unfold mbind at 1, M_bind at 1. unfold query, fetch.
  destruct (is_none s'), (is_none e'); cbn [negb andb].
  - munfold. rewrite str_app_nil. reflexivity.
  - reflexivity.
  - munfold. destruct (strftime s') as [t|x]; [| reflexivity].
    simpl py_format. rewrite str_app_nil. reflexivity.
  - munfold. destruct (py_sub e' s') as [delta|x]; [| reflexivity].
    destruct (Z.ltb (7 * us_per_day) delta); [reflexivity |].
    destruct (strftime s') as [t1|x]; [| reflexivity].
    destruct (strftime e') as [t2|x]; [| reflexivity].
    simpl py_format. rewrite str_app_nil. reflexivity.
Qed.

Lemma fetch_not_ValueError (self : instance) (url : string) (w : world)
    (msg : string) :
  (fetch self url w).1 <> Raise (ValueError msg).
Proof.
  unfold fetch, _get, merge_headers, self_headers, getattr.
  destruct (self !! "_ClickTime__headers") as [[l|v]|]; munfold; simpl;
    try discriminate.
  unfold _parse. destruct (json_loads _); [discriminate |].
  destruct logging_bound; discriminate.
Qed.

Lemma fetch_sent (self : instance) (l : loc) (url : string) (w : world) :
  self !! "_ClickTime__headers" = Some (AHeaders l) ->
  (fetch self url w).2 = after_get w l url.
Proof.
  intros Hl. unfold fetch. unfold mbind, M_bind.
  destruct (get_run self l url w Hl) as (st & rs & ->).
  apply parse_state.
Qed.

(** The conditions the claims speak of. *)
Definition end_without_start (s e : datearg) : Prop :=
  is_none s = true /\ is_none e = false.

Definition exceeds_week (s e : datearg) : Prop :=
  is_none s = false /\ is_none e = false /\
  exists s' e' delta,
    moment s = Return s' /\ moment e = Return e' /\
    py_sub e' s' = Return delta /\ 7 * us_per_day < delta.

Definition within_week (s e : datearg) : Prop :=
  exists s' e' delta,
    moment s = Return s' /\ moment e = Return e' /\
    py_sub e' s' = Return delta /\ delta <= 7 * us_per_day.

(** A supplied date the method can work with: absent, or a native value
    or parsable text, of the year 1900 or later. *)
Definition usable (a : datearg) : bool :=
  match moment a with
  | Return ANone => true
  | Return (ADate d) | Return (ADateTime d _) => Z.leb 1900 (year d)
  | _ => false
  end.

(** The eight digits a date argument is sent as. *)
Definition wire (a : datearg) : option string :=
  match moment a with
  | Return (ADate d) | Return (ADateTime d _) =>
      match strftime_Ymd d with Return t => Some t | Raise _ => None end
  | _ => None
  end.

Lemma moment_none (a a' : datearg) :
  moment a = Return a' -> is_none a' = is_none a.
Proof.
  destruct a as [| s | d | d us]; simpl; try (intros E; injection E as <-; reflexivity).
  destruct (strptime_Ymd s); [| discriminate].
  intros E; injection E as <-; reflexivity.
Qed.

Lemma moment_raises_ValueError (a : datearg) (x : exn) :
  moment a = Raise x -> is_ValueError x = true.
Proof.
  destruct a as [| s | d | d us]; simpl; try discriminate.
  destruct (strptime_Ymd s) eqn:E; [discriminate |].
  intros E'. injection E' as <-. eapply strptime_raises_ValueError, E.
Qed.

Lemma usable_moment (a : datearg) :
  usable a = true ->
  exists a', moment a = Return a' /\
             (is_none a' = false -> exists t, strftime a' = Return t).
Proof.
  unfold usable. destruct (moment a) as [a'|]; [| discriminate].
  intros Hu. exists a'. split; [reflexivity |].
  destruct a' as [| s | d | d us]; try discriminate; intros _;
    apply Z.leb_le in Hu; eexists; apply strftime_Ymd_ok, Hu.
Qed.

Lemma wire_moment (a : datearg) (t : string) :
  wire a = Some t ->
  exists a', moment a = Return a' /\ is_none a' = false /\
             strftime a' = Return t.
Proof.
  unfold wire. destruct (moment a) as [a'|]; [| discriminate].
  destruct a' as [| s | d | d us]; try discriminate; simpl;
    destruct (strftime_Ymd d) eqn:E; try discriminate;
    intros E'; injection E' as <-; eauto.
Qed.

Lemma py_sub_raises_TypeError (b a : datearg) (x : exn) :
  py_sub b a = Raise x -> is_ValueError x = false.
Proof.
  destruct b, a; simpl; try discriminate; intros E; injection E as <-;
    reflexivity.
Qed.

End TimeEntries.







(** ** Further properties of the client *)

(** *** The request helpers *)

Lemma merge_total `{Env} (self : instance) (l0 : loc) (headers : option loc)
    (w : world) :
  self !! "_ClickTime__headers" = Some (AHeaders l0) ->
  exists h w', merge_headers self headers w = (Return h, w') /\
               sent w' = sent w.
Proof.
  intros Hl. unfold merge_headers, self_headers, getattr. rewrite Hl.
  munfold. destruct headers as [l|]; [| eauto].
  destruct (negb _); eauto.
Qed.

Lemma get_full `{Env} (self : instance) (url : string)
    (headers : option loc) (w w' : world) (h : loc) :
  merge_headers self headers w = (Return h, w') ->
  let req := Request "GET" ("/api/1.0/" ++ url) (default ∅ (heap w' !! h)) None in
  _get self url headers w =
    (Return (resp_data (server (sent w') req),
             resp_status (server (sent w') req),
             resp_reason (server (sent w') req)),
     World (heap w') (sent w' ++ [req])).
Proof.
  intros Hm. unfold _get. unfold mbind at 1, M_bind at 1. rewrite Hm.
  munfold. unfold send. simpl. rewrite str_app_nil. reflexivity.
Qed.

Lemma post_full `{Env} (self : instance) (url : string)
    (headers : option loc) (data : option string) (w w' : world) (h : loc) :
  merge_headers self headers w = (Return h, w') ->
  let hs := <[ "content-type" := content_type ]> (default ∅ (heap w' !! h)) in
  let req := Request "POST" ("/api/1.0/" ++ url) hs data in
  _post self url headers data w =
    (Return (resp_data (server (sent w') req),
             resp_status (server (sent w') req),
             resp_reason (server (sent w') req)),
     World (<[h := hs]> (heap w')) (sent w' ++ [req])).
Proof.
  intros Hm. unfold _post. unfold mbind at 1, M_bind at 1. rewrite Hm.
  munfold. unfold send. simpl. rewrite lookup_insert_eq. simpl.
  rewrite str_app_nil. reflexivity.
Qed.

(** X1.  [_get] and [_post] send exactly one request each, to the URL prefixed
    with [/api/1.0/], with the method and body they are given, and hand
    back the body, status and reason of the answer as they are: whatever
    the status, nothing is raised. *)
Theorem helpers_send_once `{Env} (self : instance) (l0 : loc) (url : string)
    (data : option string) (headers : option loc) (w : world) :
  self !! "_ClickTime__headers" = Some (AHeaders l0) ->
  (exists req,
     sent (_get self url headers w).2 = (sent w ++ [req])%list /\
     req_method req = "GET" /\ req_url req = "/api/1.0/" ++ url /\
     req_body req = None /\
     (_get self url headers w).1 =
       Return (resp_data (server (sent w) req),
               resp_status (server (sent w) req),
               resp_reason (server (sent w) req))) /\
  (exists req,
     sent (_post self url headers data w).2 = (sent w ++ [req])%list /\
     req_method req = "POST" /\ req_url req = "/api/1.0/" ++ url /\
     req_body req = data /\
     req_headers req !! "content-type" = Some content_type /\
     (_post self url headers data w).1 =
       Return (resp_data (server (sent w) req),
               resp_status (server (sent w) req),
               resp_reason (server (sent w) req))).
Proof.
  intros Hl.
  destruct (merge_total self l0 headers w Hl) as (h & w' & Hm & Hs).
  split.
  - rewrite (get_full self url headers w w' h Hm). simpl. rewrite Hs.
    eexists. repeat split.
  - rewrite (post_full self url headers data w w' h Hm). simpl. rewrite Hs.
    eexists. split; [reflexivity |]. repeat split. simpl.
    apply lookup_insert_eq.
Qed.

Lemma helpers_send_once_witness :
  exists req,
    sent (_post (H := Sample.script_env) Sample.ct "Session" (Some 2%nat)
            (Some "{}") Sample.w_mine).2 = (sent Sample.w_mine ++ [req])%list /\
    req_method req = "POST" /\ req_url req = "/api/1.0/Session" /\
    req_body req = Some "{}" /\
    req_headers req !! "content-type" = Some content_type /\
    (_post (H := Sample.script_env) Sample.ct "Session" (Some 2%nat)
       (Some "{}") Sample.w_mine).1 =
      Return (resp_data (@server Sample.script_env (sent Sample.w_mine) req),
              resp_status (@server Sample.script_env (sent Sample.w_mine) req),
              resp_reason (@server Sample.script_env (sent Sample.w_mine) req)).
Proof.
  exact (proj2 (helpers_send_once (H := Sample.script_env) Sample.ct 0%nat
                  "Session" (Some "{}") (Some 2%nat) Sample.w_mine eq_refl)).
Defined.

(** *** [session] and [company] *)

Section Getters.
Context `{Env}.

(** What the parse helper makes of a body when [None] is the default. *)
Definition decoded (body : string) (default : value) : result value :=
  match json_loads body with
  | Some v => Return v
  | None => if logging_bound then Return default
            else Raise (NameError "global name 'logging' is not defined")
  end.

Lemma parse_decoded (body : string) (default : value) (w : world) :
  _parse body default w = (decoded body default, w).
Proof.
  unfold _parse, decoded. destruct (json_loads body); [reflexivity |].
  destruct logging_bound; reflexivity.
Qed.

Lemma fetch_run (self : instance) (l : loc) (url : string) (w : world) :
  self !! "_ClickTime__headers" = Some (AHeaders l) ->
  fetch self url w = (decoded (reply w l url) VNone, after_get w l url).
Proof.
  intros Hl. unfold fetch. unfold mbind, M_bind.
  destruct (get_run self l url w Hl) as (st & rs & ->).
  apply parse_decoded.
Qed.

End Getters.

(** X2.  [session] and [company] send one GET, to [Session] and to
    [Companies/ID], where ID is the argument or, when the argument is
    [None], the instance's own CompanyID; they return what the parse helper
    makes of the body with [None] as the default.  The status of the
    answer plays no part. *)
Theorem session_company_run `{Env} (self : instance) (l : loc)
    (company_id id : value) (w : world) :
  self !! "_ClickTime__headers" = Some (AHeaders l) ->
  (company_id = VNone /\ self !! "CompanyID" = Some (AVal id)) \/
  (company_id <> VNone /\ id = company_id) ->
  session self w =
    (decoded (reply w l "Session") VNone, after_get w l "Session") /\
  company self company_id w =
    (decoded (reply w l ("Companies/" ++ py_str id)) VNone,
     after_get w l ("Companies/" ++ py_str id)).
Proof.
  intros Hl Hid. split.
  - apply (fetch_run self l "Session" w Hl).
  - unfold company.
    assert (Hc : (if py_eq company_id VNone
                  then getattr_value self "CompanyID" else mret company_id) w
                 = (Return id, w)).
    { destruct Hid as [(-> & Hc) | (Hne & ->)].
      - simpl. unfold getattr_value, getattr, attr_value. rewrite Hc.
        reflexivity.
      - apply py_ne_None in Hne. unfold py_ne in Hne.
        destruct (py_eq company_id VNone); [discriminate | reflexivity]. }
    unfold mbind at 1, M_bind at 1. rewrite Hc.
    unfold mbind at 1, M_bind at 1. unfold lift.
    replace (py_format "Companies/%s" [id])
      with (Return ("Companies/" ++ py_str id))
      by (simpl; now rewrite str_app_nil).
    apply (fetch_run self l _ w Hl).
Qed.

Lemma session_company_run_witness :
  company (H := Sample.script_env) Sample.ct VNone Sample.w1 =
    (decoded (H := Sample.script_env)
       (reply (H := Sample.script_env) Sample.w1 0%nat "Companies/c9") VNone,
     after_get Sample.w1 0%nat "Companies/c9").
Proof.
  exact (proj2 (session_company_run (H := Sample.script_env) Sample.ct 0%nat
                  VNone (VStr "c9") Sample.w1 eq_refl
                  (or_introl (conj eq_refl eq_refl)))).
Defined.

(** *** More on the look-ups *)

Section Lookups.
Context `{Env}.

(** The filter applied to decoded data. *)
Definition selected (field : string) (id data : value) : result value :=
  if py_ne id VNone then
    match py_iter data with
    | Return items => scan field id items
    | Raise e => Raise e
    end
  else Return data.

Lemma lookup_tail (self : instance) (l : loc) (url field : string)
    (id : value) (w : world) :
  self !! "_ClickTime__headers" = Some (AHeaders l) ->
  ((r ← _get self url None;
    data ← _parse r.1.1 (VList []);
    select field id data) w).1 =
    match decoded (reply w l url) (VList []) with
    | Return data => selected field id data
    | Raise e => Raise e
    end.
Proof.
  intros Hl. unfold mbind at 1, M_bind at 1.
  destruct (get_run self l url w Hl) as (st & rs & ->).
  unfold mbind, M_bind. rewrite parse_decoded. simpl fst.
  destruct (decoded (reply w l url) (VList [])); [| reflexivity].
  rewrite select_run. reflexivity.
Qed.

Lemma call_result (m : lookup) (self : instance) (l : loc) (c u id : value)
    (w : world) :
  ready self l c u ->
  (call m self id w).1 =
    match decoded (reply w l (lookup_url m c u)) (VList []) with
    | Return data => selected (lookup_field m) id data
    | Raise e => Raise e
    end.
Proof.
  intros Hr. pose proof Hr as (Hl & _).
  destruct m as [|wc|]; unfold call, clients, jobs, tasks;
    unfold mbind at 1, M_bind at 1;
    rewrite (user_url_run _ _ _ _ _ _ Hr).
  - replace (py_format "Companies/%s/Users/%s/Clients" [c; u])
      with (Return (user_path c u "/Clients")) by reflexivity.
    exact (lookup_tail self l (user_path c u "/Clients") "ClientID" id w Hl).
  - replace (py_format "Companies/%s/Users/%s/Jobs" [c; u])
      with (Return (user_path c u "/Jobs")) by reflexivity.
    exact (lookup_tail self l (lookup_url (Jobs wc) c u) "Number" id w Hl).
  - replace (py_format "Companies/%s/Users/%s/Tasks" [c; u])
      with (Return (user_path c u "/Tasks")) by reflexivity.
    exact (lookup_tail self l (user_path c u "/Tasks") "Code" id w Hl).
Qed.

Lemma scan_first (field : string) (id x : value) (before after : list value) :
  Forall (fun y => exists f, py_getitem y field = Return f /\
                             py_eq f id = false) before ->
  matches field id x ->
  scan field id (before ++ x :: after) = Return (VList [x]).
Proof.
  intros Hb (f & Hf & Hid). induction Hb as [|y before (g & Hg & Hn) _ IH].
  - simpl. now rewrite Hf, Hid.
  - simpl. now rewrite Hg, Hn.
Qed.

End Lookups.

(** X3.  A body that is not JSON: run as a script, [clients], [jobs] and
    [tasks] answer with the empty list, with or without an identifier,
    exactly as for a body holding the empty list; in an importing program
    they raise [NameError]. *)
Theorem lookup_on_malformed_body `{Env} (m : lookup) (self : instance)
    (l : loc) (c u id : value) (w : world) :
  ready self l c u ->
  json_loads (reply w l (lookup_url m c u)) = None ->
  (logging_bound = true -> (call m self id w).1 = Return (VList [])) /\
  (logging_bound = false ->
   (call m self id w).1 =
     Raise (NameError "global name 'logging' is not defined")).
Proof.
  intros Hr Hb. rewrite (call_result m self l c u id w Hr).
  unfold decoded. rewrite Hb. split; intros ->; [| reflexivity].
  unfold selected. destruct (py_ne id VNone); reflexivity.
Qed.

Lemma lookup_on_malformed_body_witness :
  (call (H := Sample.env true [] Sample.known) Tasks Sample.ct (VStr "DEV")
     (World (heap Sample.w1) [])).1 = Return (VList []).
Proof.
  refine (proj1 (lookup_on_malformed_body (H := Sample.env true [] Sample.known)
                   Tasks Sample.ct 0%nat (VStr "c9") (VStr "u4") (VStr "DEV")
                   (World (heap Sample.w1) []) ct_ready _) eq_refl).
  reflexivity.
Defined.

(** X4.  The filter stops at the first record whose field equals the
    identifier: that record is the answer whatever follows it, be it a
    second match or a record without the field. *)
Theorem lookup_first_match `{Env} (m : lookup) (self : instance) (l : loc)
    (c u id x : value) (before after : list value) (w : world) :
  ready self l c u ->
  json_loads (reply w l (lookup_url m c u)) = Some (VList (before ++ x :: after)) ->
  id <> VNone ->
  Forall (fun y => exists f, py_getitem y (lookup_field m) = Return f /\
                             py_eq f id = false) before ->
  matches (lookup_field m) id x ->
  (call m self id w).1 = Return (VList [x]).
Proof.
  intros Hr Hb Hid Hbefore Hx. rewrite (call_result m self l c u id w Hr).
  unfold decoded. rewrite Hb. unfold selected.
  rewrite (proj2 (py_ne_None id) Hid). simpl.
  apply scan_first; assumption.
Qed.

Lemma lookup_first_match_witness :
  (call (H := Sample.script_env) Clients Sample.ct (VStr "8") Sample.w1).1 =
    Return (VList [Sample.record [("ClientID", VStr "8"); ("Name", VStr "Globex")]]).
Proof.
  refine (lookup_first_match (H := Sample.script_env) Clients Sample.ct 0%nat
            (VStr "c9") (VStr "u4") (VStr "8") _
            [Sample.record [("ClientID", VStr "7"); ("Name", VStr "Acme")]] []
            Sample.w1 ct_ready _ _ _ _).
  - reflexivity.
  - discriminate.
  - repeat constructor. exists (VStr "7"). split; reflexivity.
  - exists (VStr "8"). split; reflexivity.
Defined.

(** A server that answers the client list with a JSON object. *)
Definition object_env : Env :=
  Sample.env true
    [("/api/1.0/Companies/c9/Users/u4/Clients", dumps_value Sample.session_doc)]
    Sample.known.

(** X5.  A body that decodes to a JSON object, as error answers often do:
    without an identifier the object itself is returned as if it were the
    collection; with an identifier the loop runs over the keys, so an empty
    object gives the empty list and any other object raises [TypeError]. *)
Theorem lookup_on_object `{Env} (m : lookup) (self : instance) (l : loc)
    (c u id : value) (d : gmap string value) (w : world) :
  ready self l c u ->
  json_loads (reply w l (lookup_url m c u)) = Some (VDict d) ->
  (id = VNone -> (call m self id w).1 = Return (VDict d)) /\
  (id <> VNone -> d = ∅ -> (call m self id w).1 = Return (VList [])) /\
  (id <> VNone -> d <> ∅ ->
   (call m self id w).1 =
     Raise (TypeError "string indices must be integers, not str")).
Proof.
  intros Hr Hb. rewrite (call_result m self l c u id w Hr).
  unfold decoded. rewrite Hb. unfold selected. split; [| split].
  - intros ->. reflexivity.
  - intros Hid ->. rewrite (proj2 (py_ne_None id) Hid). simpl.
    rewrite map_to_list_empty. reflexivity.
  - intros Hid Hd. rewrite (proj2 (py_ne_None id) Hid). simpl.
    destruct (map_to_list d) as [|[k v] rest] eqn:E.
    + apply map_to_list_empty_iff in E. contradiction.
    + reflexivity.
Qed.

Lemma lookup_on_object_witness :
  (call (H := object_env) Clients Sample.ct (VStr "7") Sample.w1).1 =
    Raise (TypeError "string indices must be integers, not str").
Proof.
  refine (proj2 (proj2 (lookup_on_object (H := object_env) Clients Sample.ct
                          0%nat (VStr "c9") (VStr "u4") (VStr "7") _
                          Sample.w1 ct_ready _)) _ _).
  - reflexivity.
  - discriminate.
  - intros E. apply (f_equal (fun d => d !! "UserID")) in E.
    vm_compute in E. discriminate.
Defined.

(** *** More on construction *)

Section Built.
Context `{Env}.

(** The state the constructor leaves: the stored headers at a fresh
    address, the copy [_get] made of them, and the Session request. *)
Definition init_loc (w : world) : loc := fresh (dom (heap w)).

Definition init_world (username password : value) (w : world) : world :=
  after_get (World (<[init_loc w := auth_headers username password]> (heap w))
                   (sent w))
            (init_loc w) "Session".

Lemma init_state (username password : value) (w : world) :
  (__init__ username password w).2 = init_world username password w.
Proof.
  unfold __init__, init_world, session. munfold. simpl.
  rewrite !str_app_nil. fold (init_loc w).
  change (stdpp.base.singletonM "Authorization" _)
    with (auth_headers username password).
  set (w1 := World _ (sent w)).
  destruct (get_run {["_ClickTime__headers" := AHeaders (init_loc w)]}
              (init_loc w) "Session" w1)
    as (st & rs & ->); [apply lookup_singleton_eq |].
  simpl fst. rewrite parse_decoded.
  destruct (decoded _ VNone) as [s|e]; [| reflexivity].
  destruct (py_eq s VNone); [reflexivity |].
  destruct s; try reflexivity.
  destruct (bool_decide (is_Some (d !! "CompanyID"))); reflexivity.
Qed.

Lemma init_world_sent (username password : value) (w : world) :
  sent (init_world username password w) =
    (sent w ++ [session_request username password])%list.
Proof.
  unfold init_world, after_get, get_request, stored. simpl.
  rewrite lookup_insert_eq. reflexivity.
Qed.

Lemma init_world_stored (username password : value) (w : world) :
  stored (init_world username password w) (init_loc w) =
    auth_headers username password.
Proof.
  unfold init_world, after_get, stored. simpl.
  rewrite lookup_insert_eq. simpl.
  destruct (decide (fresh (dom (<[init_loc w := auth_headers username password]>
                                  (heap w))) = init_loc w)) as [-> | Hne].
  - rewrite lookup_insert_eq. reflexivity.
  - rewrite lookup_insert_ne by exact Hne.
    rewrite lookup_insert_eq. reflexivity.
Qed.

Lemma init_result (username password : value) (w : world) (self : instance) :
  (__init__ username password w).1 = Return self ->
  exists d, parsed_session username password w = Return (VDict d) /\
            set_attributes
              (<["_ClickTime__session" := AVal (VDict d)]>
                 {["_ClickTime__headers" := AHeaders (init_loc w)]}) d =
              Return self.
Proof.
  unfold __init__, parsed_session, session. munfold. simpl.
  rewrite !str_app_nil. fold (init_loc w).
  set (w1 := World _ (sent w)).
  destruct (get_run {["_ClickTime__headers" := AHeaders (init_loc w)]}
              (init_loc w) "Session" w1)
    as (st & rs & ->); [apply lookup_singleton_eq |].
  assert (Hb : reply w1 (init_loc w) "Session" =
               resp_data (server (sent w) (session_request username password))).
  { unfold reply, get_request, stored, w1. simpl.
    rewrite lookup_insert_eq. reflexivity. }
  simpl fst. rewrite Hb. rewrite !parse_decoded. simpl.
  destruct (decoded _ VNone) as [s|e]; [| discriminate].
  destruct (py_eq s VNone); [discriminate |].
  destruct s; try discriminate.
  destruct (bool_decide (is_Some (d !! "CompanyID"))); [| discriminate].
  simpl. intros E. eauto.
Qed.

End Built.

(** X6.  Whatever its outcome, the constructor sends exactly one request: the
    GET of [Session], carrying only the Authorization header built from
    the credentials. *)
Theorem construction_sends_session `{Env} (username password : value)
    (w : world) :
  sent (__init__ username password w).2 =
    (sent w ++ [Request "GET" "/api/1.0/Session"
                  {[ "Authorization" :=
                       ("Basic " ++ drop_last (b64encodestring
                          (py_str username ++ ":" ++ py_str password)))%string ]}
                  None])%list.
Proof. rewrite init_state. apply init_world_sent. Qed.

(** X7.  An instance the constructor returns is fit for the other methods
    whenever the session carries a UserID and no key spelled like the
    private header field: it holds the header dictionary, whose content is
    the Authorization header, and CompanyID and UserID as text. *)
Theorem construction_makes_ready `{Env} (username password cv uv : value)
    (d : gmap string value) (self : instance) (w : world) :
  (__init__ username password w).1 = Return self ->
  parsed_session username password w = Return (VDict d) ->
  d !! "CompanyID" = Some cv -> d !! "UserID" = Some uv ->
  d !! "_ClickTime__headers" = None ->
  ready self (init_loc w) (VStr (py_str cv)) (VStr (py_str uv)) /\
  stored (__init__ username password w).2 (init_loc w) =
    auth_headers username password.
Proof.
  intros Hs Hp Hc Hu Hh.
  destruct (init_result username password w self Hs) as (d' & Hp' & Hset).
  rewrite Hp in Hp'. injection Hp' as <-.
  split; [split; [| split] |].
  - rewrite (set_attributes_lookup _ _ _ _ Hset), Hh.
    rewrite lookup_insert_ne by discriminate. apply lookup_singleton_eq.
  - rewrite (set_attributes_lookup _ _ _ _ Hset), Hc. reflexivity.
  - rewrite (set_attributes_lookup _ _ _ _ Hset), Hu. reflexivity.
  - rewrite init_state. apply init_world_stored.
Qed.

Lemma construction_makes_ready_witness :
  ready Sample.ct (init_loc Sample.w0) (VStr "c9") (VStr "u4") /\
  stored (__init__ (H := Sample.script_env) (VStr "alice") (VStr "secret")
            Sample.w0).2 (init_loc Sample.w0) =
    auth_headers (H := Sample.script_env) (VStr "alice") (VStr "secret").
Proof.
  refine (construction_makes_ready (H := Sample.script_env) (VStr "alice")
            (VStr "secret") (VStr "c9") (VStr "u4") _ Sample.ct Sample.w0
            _ _ _ _ _); reflexivity.
Defined.

(** *** More on [create_timeentry] *)

Section Entry.
Context `{Env}.

(** The date stage of the method: the date-time it works with. *)
Definition entry_moment (date : datearg) : result datearg :=
  match date with
  | ANone => Return (ADateTime today.1 today.2)
  | _ => moment date
  end.

Lemma entry_moment_run (date : datearg) (w : world) :
  (match date with
   | ANone => mret (ADateTime today.1 today.2)
   | AStr s => d ← lift (strptime_Ymd s); mret (ADateTime d 0)
   | _ => mret date
   end) w = (entry_moment date, w).
Proof.
  destruct date as [| s | d | d us]; try reflexivity.
  munfold. simpl. destruct (strptime_Ymd s); reflexivity.
Qed.

(** What stops the method before it has anything to send. *)
Definition entry_error (date : datearg) (hours : value) : option exn :=
  match entry_moment date with
  | Raise x => Some x
  | Return a =>
      match strftime a with
      | Raise x => Some x
      | Return _ =>
          match float_json hours with
          | Raise x => Some x
          | Return _ => None
          end
      end
  end.

Lemma create_timeentry_run (self : instance) (l : loc)
    (c u job_id task_id hours comment break_time : value) (date a : datearg)
    (ds h body : string) (w : world) :
  ready self l c u ->
  entry_moment date = Return a -> strftime a = Return ds ->
  float_json hours = Return h ->
  json_dumps (entry_data job_id task_id ds h comment break_time) =
    Return body ->
  let hs := <[ "content-type" := content_type ]> (stored w l) in
  let req := Request "POST" ("/api/1.0/" ++ user_path c u "/TimeEntries") hs
               (Some body) in
  create_timeentry self job_id task_id hours date comment break_time w =
    (decoded (resp_data (server (sent w) req)) VNone,
     World (<[fresh (dom (heap w)) := hs]> (heap w)) (sent w ++ [req])).
Proof.
  intros Hr Ha Hs Hh Hb hs req. pose proof Hr as (Hl & _).
  unfold create_timeentry.
  unfold mbind at 1, M_bind at 1. rewrite entry_moment_run, Ha.
  unfold mbind at 1, M_bind at 1. unfold lift at 1. rewrite Hs.
  unfold mbind at 1, M_bind at 1. unfold lift at 1. rewrite Hh.
  cbv zeta. fold (entry_data job_id task_id ds h comment break_time).
  unfold mbind at 1, M_bind at 1. unfold lift at 1. rewrite Hb.
  unfold mbind at 1, M_bind at 1.
  rewrite (user_url_run _ _ _ _ _ _ Hr).
  replace (py_format "Companies/%s/Users/%s/TimeEntries" [c; u])
    with (Return (user_path c u "/TimeEntries")) by reflexivity.
  cbv iota beta. unfold mbind at 1, M_bind at 1.
  pose proof (merge_copy self l None w Hl (or_introl eq_refl)) as Hm.
  rewrite (post_full self _ None _ w _ _ Hm). simpl.
  rewrite lookup_insert_eq. simpl. rewrite insert_insert_eq.
  rewrite parse_decoded. reflexivity.
Qed.

(** When [json.dumps] raises, the method raises with it, before the URL is
    formatted and before anything is sent. *)
Lemma create_timeentry_dumps_raises (self : instance)
    (job_id task_id hours comment break_time : value) (date a : datearg)
    (ds h : string) (x : exn) (w : world) :
  entry_moment date = Return a -> strftime a = Return ds ->
  float_json hours = Return h ->
  json_dumps (entry_data job_id task_id ds h comment break_time) = Raise x ->
  create_timeentry self job_id task_id hours date comment break_time w =
    (Raise x, w).
Proof.
  intros Ha Hs Hh Hb. unfold create_timeentry.
  unfold mbind at 1, M_bind at 1. rewrite entry_moment_run, Ha.
  unfold mbind at 1, M_bind at 1. unfold lift at 1. rewrite Hs.
  unfold mbind at 1, M_bind at 1. unfold lift at 1. rewrite Hh.
  cbv zeta. fold (entry_data job_id task_id ds h comment break_time).
  unfold mbind at 1, M_bind at 1. unfold lift at 1. rewrite Hb.
  reflexivity.
Qed.

Lemma create_timeentry_stops (self : instance)
    (job_id task_id hours comment break_time : value) (date : datearg)
    (x : exn) (w : world) :
  entry_error date hours = Some x ->
  create_timeentry self job_id task_id hours date comment break_time w =
    (Raise x, w).
Proof.
  unfold entry_error. intros He. unfold create_timeentry.
  unfold mbind at 1, M_bind at 1. rewrite entry_moment_run.
  destruct (entry_moment date) as [a|y]; [| congruence].
  unfold mbind at 1, M_bind at 1. unfold lift at 1.
  destruct (strftime a) as [ds|y]; [| congruence].
  unfold mbind at 1, M_bind at 1. unfold lift at 1.
  destruct (float_json hours) as [h|y]; [discriminate | congruence].
Qed.

End Entry.

Lemma entry_moment_date `{Env} (date : datearg) (d : Datetime.date) :
  entry_date date = Some d ->
  exists a, entry_moment date = Return a /\ strftime a = strftime_Ymd d.
Proof.
  destruct date as [| s | d' | d' us]; simpl; intros E.
  - injection E as <-. eauto.
  - destruct (strptime_Ymd s); [| discriminate]. injection E as <-. eauto.
  - injection E as <-. eauto.
  - injection E as <-. eauto.
Qed.





(** *** More on the time-entry query *)

(** X10.  Called without dates, [timeentires] asks for the Jobs URL of the user:
    it sends the very request [jobs] sends when told not to ask for child
    ids, and whenever the body is JSON both return the same decoded
    value. *)
Theorem timeentires_without_dates `{Env} (self : instance) (l : loc)
    (c u : value) (w : world) :
  ready self l c u ->
  timeentires self ANone ANone w =
    (decoded (reply w l (user_path c u "/Jobs")) VNone,
     after_get w l (user_path c u "/Jobs")) /\
  (jobs self VNone (VBool false) w).2 = (timeentires self ANone ANone w).2 /\
  (forall v, json_loads (reply w l (user_path c u "/Jobs")) = Some v ->
     (jobs self VNone (VBool false) w).1 = Return v /\
     (timeentires self ANone ANone w).1 = Return v).
Proof.
  intros Hr. pose proof Hr as (Hl & _).
  pose proof (user_url_run self l c u "Companies/%s/Users/%s/Jobs" w Hr) as Hu.
  replace (py_format "Companies/%s/Users/%s/Jobs" [c; u])
    with (Return (user_path c u "/Jobs")) in Hu by reflexivity.
  assert (Ht : timeentires self ANone ANone w =
               (decoded (reply w l (user_path c u "/Jobs")) VNone,
                after_get w l (user_path c u "/Jobs"))).
  { rewrite (timeentires_run self ANone ANone w _ Hu). simpl.
    rewrite str_app_nil. apply (fetch_run self l _ w Hl). }
  split; [exact Ht |]. rewrite Ht. simpl. split.
  - exact (call_state (Jobs (VBool false)) self l c u VNone w Hr).
  - intros v Hv. split.
    + change (jobs self VNone (VBool false))
        with (call (Jobs (VBool false)) self VNone).
      rewrite (call_result (Jobs (VBool false)) self l c u VNone w Hr).
      simpl lookup_url. unfold decoded. rewrite Hv. reflexivity.
    + unfold decoded. rewrite Hv. reflexivity.
Qed.

Lemma timeentires_without_dates_witness :
  (jobs (H := Sample.script_env) Sample.ct VNone (VBool false) Sample.w1).1 =
    Return Sample.jobs_doc /\
  (timeentires (H := Sample.script_env) Sample.ct ANone ANone Sample.w1).1 =
    Return Sample.jobs_doc.
Proof.
  refine (proj2 (proj2 (timeentires_without_dates (H := Sample.script_env)
                          Sample.ct 0%nat (VStr "c9") (VStr "u4") Sample.w1
                          ct_ready)) Sample.jobs_doc _).
  reflexivity.
Defined.



(** *** What every method leaves alone *)

Section Operations.
Context `{Env}.

(** The public methods, as one family. *)
Inductive operation : Type :=
| OSession
| OCompany (company_id : value)
| OUser (company_id user_id : value)
| OLookup (m : lookup) (id : value)
| OTimeEntries (startdate enddate : datearg)
| OCreate (job_id task_id hours : value) (date : datearg)
          (comment break_time : value).

Definition perform (self : instance) (o : operation) : M value :=
  match o with
  | OSession => session self
  | OCompany company_id => company self company_id
  | OUser company_id user_id => user self company_id user_id
  | OLookup m id => call m self id
  | OTimeEntries startdate enddate => timeentires self startdate enddate
  | OCreate job_id task_id hours date comment break_time =>
      create_timeentry self job_id task_id hours date comment break_time
  end.

(** The state after a request made with a fresh copy of the stored
    headers, [extra] being what the helper adds to the copy. *)
Definition after_request (w : world) (req : request) : world :=
  World (<[fresh (dom (heap w)) := req_headers req]> (heap w)) (sent w ++ [req]).

(** The headers of a request made from the stored headers [s]: a GET
    sends them as they are, a POST sets the content type and nothing
    else. *)
Definition carries (s : gmap string string) (req : request) : Prop :=
  req_headers req =
    if String.eqb (req_method req) "POST"
    then <[ "content-type" := content_type ]> s else s.

Lemma default_id_run (self : instance) (name : string) (given own : value)
    (w : world) :
  self !! name = Some (AVal own) ->
  (if py_eq given VNone then getattr_value self name else mret given) w =
    (Return (if py_eq given VNone then own else given), w).
Proof.
  intros Ha. destruct (py_eq given VNone); [| reflexivity].
  unfold getattr_value, getattr, attr_value. rewrite Ha. reflexivity.
Qed.

Lemma perform_state (self : instance) (l : loc) (c u : value) (o : operation)
    (w : world) :
  ready self l c u ->
  (perform self o w).2 = w \/
  exists req, (perform self o w).2 = after_request w req /\
              carries (stored w l) req.
Proof.
  intros Hr. pose proof Hr as (Hl & Hc & Hu).
  assert (Hget : forall url, exists req,
             after_get w l url = after_request w req /\
             carries (stored w l) req).
  { intros url. exists (get_request w l url). split; reflexivity. }
  destruct o as [| cid | cid uid | m id | sd ed | j t h d cm bt]; simpl.
  - right. pose proof (fetch_run self l "Session" w Hl) as Hf.
    unfold fetch in Hf. unfold session. rewrite Hf. apply Hget.
  - right. unfold company. unfold mbind at 1, M_bind at 1.
    rewrite (default_id_run self "CompanyID" cid c w Hc).
    unfold mbind at 1, M_bind at 1. unfold lift.
    replace (py_format "Companies/%s" [if py_eq cid VNone then c else cid])
      with (Return ("Companies/" ++
                    py_str (if py_eq cid VNone then c else cid)))
      by (simpl; now rewrite str_app_nil).
    cbv iota beta.
    pose proof (fetch_run self l ("Companies/" ++
                  py_str (if py_eq cid VNone then c else cid)) w Hl) as Hf.
    unfold fetch in Hf. rewrite Hf. apply Hget.
  - left. unfold user. unfold mbind at 1, M_bind at 1.
    rewrite (default_id_run self "CompanyID" cid c w Hc).
    unfold mbind at 1, M_bind at 1.
    rewrite (default_id_run self "UserID" uid u w Hu).
    reflexivity.
  - right. rewrite (call_state m self l c u id w Hr). apply Hget.
  - pose proof (user_url_run self l c u "Companies/%s/Users/%s/Jobs" w Hr) as Hx.
    replace (py_format "Companies/%s/Users/%s/Jobs" [c; u])
      with (Return (user_path c u "/Jobs")) in Hx by reflexivity.
    rewrite (timeentires_run self sd ed w _ Hx).
    destruct (moment sd) as [s'|x]; [| now left].
    destruct (moment ed) as [e'|x]; [| now left].
    destruct (query s' e') as [q|x]; [| now left].
    right. rewrite (fetch_run self l _ w Hl). apply Hget.
  - destruct (entry_error d h) as [x|] eqn:Ee.
    + left. now rewrite (create_timeentry_stops self j t h cm bt d x w Ee).
    + unfold entry_error in Ee.
      destruct (entry_moment d) as [a|] eqn:Ea; [| discriminate].
      destruct (strftime a) as [ds|] eqn:Es; [| discriminate].
      destruct (float_json h) as [hh|] eqn:Eh; [| discriminate].
      destruct (json_dumps (entry_data j t ds hh cm bt)) as [body|x] eqn:Eb.
      * right.
        pose proof (create_timeentry_run self l c u j t h cm bt d a ds hh
                      body w Hr Ea Es Eh Eb) as Hrun.
        cbv zeta in Hrun. rewrite Hrun.
        exists (Request "POST" ("/api/1.0/" ++ user_path c u "/TimeEntries")
                  (<[ "content-type" := content_type ]> (stored w l))
                  (Some body)).
        split; reflexivity.
      * left.
        now rewrite (create_timeentry_dumps_raises self j t h cm bt d a ds hh
                       x w Ea Es Eh Eb).
Qed.

End Operations.

(** X12.  Every public method, on an instance that holds its headers,
    CompanyID and UserID: it sends at most one request; the headers of that
    request are the stored headers (the Authorization header among them),
    unchanged on a GET and with the content type set, and nothing else, on
    a POST; and no header dictionary that existed before the call is
    changed, the stored one included. *)
Theorem methods_keep_headers `{Env} (self : instance) (l : loc) (c u : value)
    (s : gmap string string) (o : operation) (w : world) :
  ready self l c u ->
  heap w !! l = Some s ->
  (forall l' d, heap w !! l' = Some d ->
                heap (perform self o w).2 !! l' = Some d) /\
  (sent (perform self o w).2 = sent w \/
   exists req, sent (perform self o w).2 = (sent w ++ [req])%list /\
               req_headers req =
                 if String.eqb (req_method req) "POST"
                 then <[ "content-type" := content_type ]> s else s).
Proof.
  intros Hr Hs.
  assert (Hst : stored w l = s) by (unfold stored; now rewrite Hs).
  destruct (perform_state self l c u o w Hr) as [-> | (req & -> & Hc)].
  - split; [auto | now left].
  - unfold carries in Hc. rewrite Hst in Hc. split.
    + intros l' d Hd. simpl.
      assert (Hne : fresh (dom (heap w)) <> l').
      { intros <-. pose proof (is_fresh (dom (heap w))) as Hf.
        apply not_elem_of_dom in Hf. congruence. }
      now rewrite lookup_insert_ne.
    + right. exists req. split; [reflexivity | exact Hc].
Qed.

Lemma methods_keep_headers_witness :
  heap (perform (H := Sample.script_env) Sample.ct
          (OCreate (VStr "j1") (VStr "t1") (VStr "2") ANone VNone VNone)
          Sample.w1).2 !! 0%nat = Some Sample.hdrs.
Proof.
  refine (proj1 (methods_keep_headers (H := Sample.script_env) Sample.ct 0%nat
                   (VStr "c9") (VStr "u4") Sample.hdrs
                   (OCreate (VStr "j1") (VStr "t1") (VStr "2") ANone VNone VNone)
                   Sample.w1 ct_ready eq_refl) 0%nat Sample.hdrs eq_refl).
Defined.

(** *** Properties of the harness *)

#[global] Instance key_le_total : Total key_le.
Proof. intros a b. apply String.leb_total. Qed.

Section HarnessRuns.
Context `{Env}.

Lemma print_lines_run (lines : list string) (k : console) :
  print_lines lines k = (Return tt, Console (printed k ++ lines) (net k)).
Proof.
  revert k. induction lines as [|line rest IH]; intros k.
  - simpl. unfold mret, CM_ret. rewrite app_nil_r. now destruct k.
  - simpl. unfold mbind, CM_bind, print. rewrite IH. simpl.
    now rewrite <- app_assoc.
Qed.

End HarnessRuns.

(** X13.  [pprint_dict] prints one line for each key of a dictionary, in the
    order of the sorted keys, each line being the key padded to 20
    characters, a space and the value as text; it sends nothing.  Given
    anything but a dictionary it raises [AttributeError] and prints
    nothing. *)
Theorem pprint_dict_sorted `{Env} (v : value) (k : console) :
  (forall d, v = VDict d ->
     exists ks,
       pprint_dict v k =
         (Return tt, Console (printed k ++ (pprint_line d <$> ks)) (net k)) /\
       Sorted key_le ks /\ NoDup ks /\
       (forall key, key ∈ ks <-> is_Some (d !! key))) /\
  ((forall d, v <> VDict d) ->
     exists msg, pprint_dict v k = (Raise (AttributeError msg), k)).
Proof.
  split.
  - intros d ->. exists (merge_sort key_le (map_to_list d).*1).
    split; [apply print_lines_run |]. split; [| split].
    + apply (Sorted_merge_sort key_le).
    + rewrite merge_sort_Permutation. apply NoDup_fst_map_to_list.
    + intros key. rewrite merge_sort_Permutation.
      rewrite list_elem_of_fmap. split.
      * intros ([k' x] & -> & Hx). apply elem_of_map_to_list in Hx.
        simpl. eauto.
      * intros (x & Hx). exists (key, x). split; [reflexivity |].
        now apply elem_of_map_to_list.
  - intros Hv. destruct v; try (eexists; reflexivity).
    exfalso. exact (Hv d eq_refl).
Qed.

Example pprint_dict_on_sample :
  printed (pprint_dict (H := Sample.script_env) Sample.session_doc
             (Console [] Sample.w0)).2 =
    ["CompanyID            c9"; "SecurityLevel        2";
     "UserID               u4"].
Proof. reflexivity. Qed.

Definition commands : list string :=
  ["session"; "jobs"; "tasks"; "timeentries"; "create_timeentry"].

(** X14.  A word that is not a command ends the run with the parser's usage
    error (exit status 2) before anything is printed or sent. *)
Theorem unknown_command `{Env} (ct : instance) (action : string)
    (args : list string) (k : console) :
  action ∉ commands ->
  run_action ct action args k =
    (Raise (SystemExit 2 ("Unknown command '" ++ action ++ "'")), k).
Proof.
  intros Hn. unfold run_action.
  destruct (String.eqb_spec action "session") as [-> | _];
    [exfalso; apply Hn; unfold commands; set_solver |].
  destruct (String.eqb_spec action "jobs") as [-> | _];
    [exfalso; apply Hn; unfold commands; set_solver |].
  destruct (String.eqb_spec action "tasks") as [-> | _];
    [exfalso; apply Hn; unfold commands; set_solver |].
  destruct (String.eqb_spec action "timeentries") as [-> | _];
    [exfalso; apply Hn; unfold commands; set_solver |].
  destruct (String.eqb_spec action "create_timeentry") as [-> | _];
    [exfalso; apply Hn; unfold commands; set_solver |].
  unfold client, parser_error. munfold. simpl. now destruct k.
Qed.

Lemma unknown_command_witness :
  run_action (H := Sample.script_env) Sample.ct "bogus" ["session"]
    (Console [] Sample.w1) =
    (Raise (SystemExit 2 "Unknown command 'bogus'"), Console [] Sample.w1).
Proof.
  apply (unknown_command (H := Sample.script_env) Sample.ct "bogus"
           ["session"] (Console [] Sample.w1)).
  unfold commands. intros Hin.
  repeat (apply elem_of_cons in Hin as [Hin | Hin]; [discriminate |]).
  inversion Hin.
Defined.

(** X15.  [create_timeentry] followed by fewer than three arguments does not end
    in a usage error: the third [args.pop(0)] at the latest raises
    [IndexError], before any look-up is made. *)
Theorem create_timeentry_needs_three `{Env} (ct : instance)
    (args : list string) (k : console) :
  (length args < 3)%nat ->
  run_action ct "create_timeentry" args k =
    (Raise (IndexError "pop from empty list"), k).
Proof.
  intros Hlen. unfold run_action. simpl. unfold client, cli_create_timeentry.
  destruct args as [|a [|b [|c t]]]; simpl in Hlen; try lia;
    munfold; simpl; now destruct k.
Qed.

Lemma create_timeentry_needs_three_witness :
  run_action (H := Sample.script_env) Sample.ct "create_timeentry"
    ["100"; "DEV"] (Console [] Sample.w1) =
    (Raise (IndexError "pop from empty list"), Console [] Sample.w1).
Proof.
  apply (create_timeentry_needs_three (H := Sample.script_env) Sample.ct
           ["100"; "DEV"] (Console [] Sample.w1)).
  simpl. lia.
Defined.

Section HarnessNet.
Context `{Env}.

Lemma client_state {A : Type} (m : M A) (k : console) :
  client m k = ((m (net k)).1, Console (printed k) (m (net k)).2).
Proof. unfold client. now destruct (m (net k)). Qed.

Lemma pprint_dict_net (v : value) (k : console) :
  net (pprint_dict v k).2 = net k.
Proof.
  destruct v; try reflexivity. unfold pprint_dict.
  now rewrite print_lines_run.
Qed.

Lemma pprint_each_net (items : list value) (k : console) :
  net (pprint_each items k).2 = net k.
Proof.
  revert k. induction items as [|x rest IH]; intros k; [reflexivity |].
  simpl. unfold mbind at 1, CM_bind at 1.
  pose proof (pprint_dict_net x k) as Hd.
  destruct (pprint_dict x k) as [[[]|e] k1]; simpl in Hd; [| exact Hd].
  unfold mbind at 1, CM_bind at 1. unfold print at 1.
  rewrite IH. exact Hd.
Qed.

Lemma pprint_all_net (v : value) (k : console) :
  net (pprint_all v k).2 = net k.
Proof.
  unfold pprint_all. unfold mbind, CM_bind. rewrite client_state.
  unfold lift. simpl. destruct (py_iter v) as [items|e]; [| reflexivity].
  destruct k as [out w]. apply (pprint_each_net items (Console out w)).
Qed.

Lemma bind_returns {A B : Type} (m : M A) (f : A -> M B) (w : world) (r : B) :
  ((m ≫= f) w).1 = Return r ->
  exists a w', m w = (Return a, w') /\ (f a w').1 = Return r.
Proof.
  unfold mbind, M_bind. destruct (m w) as [[a|e] w']; [eauto | discriminate].
Qed.

Lemma cm_bind_returns {A B : Type} (m : CM A) (f : A -> CM B) (k : console)
    (r : B) :
  ((m ≫= f) k).1 = Return r ->
  exists a k', m k = (Return a, k') /\ (f a k').1 = Return r.
Proof.
  unfold mbind, CM_bind. destruct (m k) as [[a|e] k']; [eauto | discriminate].
Qed.

Lemma pop0_or_none_length (args : list string) :
  (length (pop0_or_none args).2 <= length args)%nat.
Proof. destruct args; simpl; lia. Qed.

(** The arguments [create_timeentry] leaves are what is left after its
    three to five pops. *)
Lemma cli_create_timeentry_leaves (ct : instance) (args r : list string)
    (w : world) :
  (cli_create_timeentry ct args w).1 = Return r ->
  (length r <= length args)%nat.
Proof.
  unfold cli_create_timeentry.
  destruct args as [|a [|b [|c t]]]; try (munfold; simpl; discriminate).
  intros Hr.
  repeat (apply bind_returns in Hr as (? & ? & Hstep & Hr);
          first [ unfold lift in Hstep; simpl in Hstep;
                  injection Hstep as <- <-
                | clear Hstep ];
          simpl in Hr).
  unfold mret, M_ret in Hr. simpl in Hr. injection Hr as <-.
  pose proof (pop0_or_none_length t).
  pose proof (pop0_or_none_length (pop0_or_none t).2).
  simpl. lia.
Qed.

Lemma run_action_leaves (ct : instance) (action : string)
    (args r : list string) (k : console) :
  (run_action ct action args k).1 = Return r ->
  (length r <= length args)%nat.
Proof.
  unfold run_action. intros Hr.
  destruct (String.eqb action "session").
  { repeat (apply cm_bind_returns in Hr as (? & ? & _ & Hr)).
    injection Hr as <-. lia. }
  destruct (String.eqb action "jobs").
  { repeat (apply cm_bind_returns in Hr as (? & ? & _ & Hr)).
    injection Hr as <-. apply pop0_or_none_length. }
  destruct (String.eqb action "tasks").
  { repeat (apply cm_bind_returns in Hr as (? & ? & _ & Hr)).
    injection Hr as <-. lia. }
  destruct (String.eqb action "timeentries").
  { repeat (apply cm_bind_returns in Hr as (? & ? & _ & Hr)).
    injection Hr as <-. lia. }
  destruct (String.eqb action "create_timeentry").
  { rewrite client_state in Hr. simpl in Hr.
    eapply cli_create_timeentry_leaves, Hr. }
  rewrite client_state in Hr. unfold parser_error in Hr. munfold.
  simpl in Hr. discriminate.
Qed.

Lemma main_loop_fuel (fuel : nat) (ct : instance) (args : list string)
    (k : console) :
  (length args <= fuel)%nat ->
  (main_loop fuel ct args k).1 <> Return false.
Proof.
  revert args k. induction fuel as [|fuel IH]; intros args k Hlen.
  - destruct args; [discriminate | simpl in Hlen; lia].
  - destruct args as [|action rest]; [discriminate |].
    simpl. unfold mbind, CM_bind.
    destruct (run_action ct action rest k) as [[r|e] k'] eqn:Er;
      [| discriminate].
    apply IH.
    pose proof (run_action_leaves ct action rest r k) as Hl.
    rewrite Er in Hl. specialize (Hl eq_refl). simpl in Hlen. lia.
Qed.

End HarnessNet.

Lemma run_action_jobs `{Env} (ct : instance) (tail : list string) :
  run_action ct "jobs" tail =
    (jobs_ ← client (jobs ct match (pop0_or_none tail).1 with
                             | Some s => VStr s
                             | None => VNone
                             end (VBool true));
     _ ← pprint_all jobs_;
     mret (pop0_or_none tail).2).
Proof. reflexivity. Qed.

Lemma jobs_action_net `{Env} (ct : instance) (l : loc) (c u : value)
    (tail : list string) (k : console) :
  ready ct l c u ->
  net (run_action ct "jobs" tail k).2 =
    after_get (net k) l (user_path c u "/Jobs" ++ "?withChildIDs=true").
Proof.
  intros Hr. rewrite run_action_jobs.
  set (jn := match (pop0_or_none tail).1 with
             | Some s => VStr s
             | None => VNone
             end).
  unfold mbind at 1, CM_bind at 1. rewrite client_state.
  pose proof (call_state (Jobs (VBool true)) ct l c u jn (net k) Hr) as Hs.
  simpl in Hs.
  destruct (jobs ct jn (VBool true) (net k)) as [[v|e] w'] eqn:Ej;
    simpl in Hs; subst w'; simpl; [| reflexivity].
  unfold mbind at 1, CM_bind at 1.
  pose proof (pprint_all_net v (Console (printed k) (after_get (net k) l
                (user_path c u "/Jobs" ++ "?withChildIDs=true")))) as Hp.
  destruct (pprint_all v _) as [[[]|e] k2]; simpl in Hp; exact Hp.
Qed.

(** X16.  The word after [jobs] is always taken as the job number, never run as
    a command: [jobs X], for any [X], and [jobs] alone both make exactly
    the one request to the Jobs URL with child ids, and the loop is then
    at its end. *)
Theorem jobs_command_takes_next `{Env} (ct : instance) (l : loc) (c u : value)
    (tail : list string) (fuel : nat) (k : console) :
  ready ct l c u ->
  (length tail <= 1)%nat ->
  net (main_loop (S fuel) ct ("jobs" :: tail) k).2 =
    after_get (net k) l (user_path c u "/Jobs" ++ "?withChildIDs=true").
Proof.
  intros Hr Hlen. simpl main_loop. unfold mbind, CM_bind.
  pose proof (jobs_action_net ct l c u tail k Hr) as Hn.
  destruct (run_action ct "jobs" tail k) as [[r|e] k'] eqn:Er; simpl in Hn;
    [| exact Hn].
  assert (Hnil : r = []).
  { pose proof (run_action_leaves ct "jobs" tail r k) as Hl.
    rewrite Er in Hl. specialize (Hl eq_refl).
    rewrite run_action_jobs in Er. apply (f_equal fst) in Er. simpl in Er.
    repeat (apply cm_bind_returns in Er as (? & ? & _ & Er)).
    injection Er as <-. destruct tail as [|a1 [|a2 t]]; simpl in *;
      [reflexivity | reflexivity | lia]. }
  subst r. destruct fuel; exact Hn.
Qed.

Lemma jobs_command_takes_next_witness :
  req_url <$> sent (net (main_loop (H := Sample.script_env) 2 Sample.ct
                           ["jobs"; "tasks"] (Console [] Sample.w1)).2) =
    ["/api/1.0/Session";
     "/api/1.0/Companies/c9/Users/u4/Jobs?withChildIDs=true"].
Proof.
  rewrite (jobs_command_takes_next (H := Sample.script_env) Sample.ct 0%nat
             (VStr "c9") (VStr "u4") ["tasks"] 1 (Console [] Sample.w1)
             ct_ready ltac:(simpl; lia)).
  reflexivity.
Defined.

(** X17.  The loop of the harness comes to its end: bounded by the number of
    arguments it never stops for want of turns, since every turn pops at
    least the command word; the script either raises or has used up its
    arguments. *)
Theorem main_uses_up_arguments `{Env} (username password : value)
    (args : list string) (k : console) :
  (main username password args k).1 = Return true \/
  exists e, (main username password args k).1 = Raise e.
Proof.
  unfold main. unfold mbind, CM_bind.
  destruct (client (__init__ username password) k) as [[ct|e] k'];
    [| right; eauto].
  pose proof (main_loop_fuel (length args) ct args k' (le_n _)) as Hf.
  destruct (main_loop (length args) ct args k') as [[[]|e] k2]; simpl in *;
    [now left | congruence | right; eauto].
Qed.
